(** * Metric extraction and trading-calendar alignment (EDA_EDGAR_XBRL.py)

    A shallow embedding of [next_trading_day], [shift_to_market_open],
    [extract_metrics] and the module constant [top_25_metrics], together
    with the part of Python's [datetime] library they rely on.

    - Dates are Python [date] objects, represented by their proleptic
      Gregorian ordinal ([date.toordinal()]); the library's range
      [date.min .. date.max] and the [OverflowError] raised when an
      addition leaves it are written out.
    - Exceptions are values of [result].
    - Text is [string], read as a sequence of code points below 256; on
      these the regular-expression class [\d] is exactly ['0'..'9'].
    - Diagnostic [print] calls write to standard output only and are left
      out; the flag [print_metrics], which also changes the returned
      list, is kept. *)

From Stdlib Require Import ZArith Lia List Ascii String Bool.
From stdpp Require Import gmap strings list.

Open Scope Z_scope.

(** ** Exceptions *)

Inductive exn : Set :=
| ValueError
| TypeError
| OverflowError
| KeyError
| InvalidRef. (* access to an unallocated object: not expressible in Python,
                 only used by the store model to stay total *)

Inductive result (A : Type) : Type :=
| Ok (a : A)
| Raise (e : exn).
Arguments Ok {A} a.
Arguments Raise {A} e.

Definition rbind {A B} (r : result A) (k : A -> result B) : result B :=
  match r with
  | Ok a => k a
  | Raise e => Raise e
  end.

#[global] Instance result_ret : MRet result := @Ok.
#[global] Instance result_bind : MBind result :=
  fun A B k r => rbind r k.

(** [try: body except ValueError: handler] *)
Definition try_except_ValueError {A} (body : result A) (handler : result A)
  : result A :=
  match body with
  | Ok a => Ok a
  | Raise ValueError => handler
  | Raise e => Raise e
  end.

(** [for x in xs: body], threading the loop's state and stopping at the
    first exception. *)
Fixpoint for_each {A S} (xs : list A) (body : A -> S -> result S) (s : S)
  : result S :=
  match xs with
  | [] => Ok s
  | x :: xs' => rbind (body x s) (for_each xs' body)
  end.

(** ** The [datetime] library

    After CPython's reference implementation ([Lib/_pydatetime.py]). *)

Module Calendar.

Definition MINYEAR : Z := 1.
Definition MAXYEAR : Z := 9999.
(** [date.max.toordinal()] *)
Definition MAXORDINAL : Z := 3652059.

Definition DAYS_IN_MONTH : list Z :=
  [-1; 31; 28; 31; 30; 31; 30; 31; 31; 30; 31; 30; 31].
Definition DAYS_BEFORE_MONTH : list Z :=
  [-1; 0; 31; 59; 90; 120; 151; 181; 212; 243; 273; 304; 334].

Definition is_leap (year : Z) : bool :=
  (year mod 4 =? 0) && (negb (year mod 100 =? 0) || (year mod 400 =? 0)).

Definition days_before_year (year : Z) : Z :=
  let y := year - 1 in y * 365 + y / 4 - y / 100 + y / 400.

Definition days_in_month (year month : Z) : Z :=
  if (month =? 2) && is_leap year then 29
  else nth (Z.to_nat month) DAYS_IN_MONTH 0.

Definition days_before_month (year month : Z) : Z :=
  nth (Z.to_nat month) DAYS_BEFORE_MONTH 0
  + (if (2 <? month) && is_leap year then 1 else 0).

Definition ymd2ord (year month day : Z) : Z :=
  days_before_year year + days_before_month year month + day.

(** A [date], by its ordinal: 1 is 0001-01-01 ([date.min]), [MAXORDINAL]
    is 9999-12-31 ([date.max]). *)
Record date : Set := mkdate { toordinal : Z }.

Definition date_in_range (d : date) : Prop :=
  1 <= toordinal d <= MAXORDINAL.

Definition date_max : date := mkdate MAXORDINAL.

(** [date(year, month, day)]; [ValueError] on fields out of range. *)
Definition date_of_ymd (year month day : Z) : result date :=
  if (MINYEAR <=? year) && (year <=? MAXYEAR)
     && (1 <=? month) && (month <=? 12)
     && (1 <=? day) && (day <=? days_in_month year month)
  then Ok (mkdate (ymd2ord year month day))
  else Raise ValueError.

(** [d.weekday()]: Monday is 0, Sunday is 6. *)
Definition weekday (d : date) : Z := (toordinal d + 6) mod 7.

(** [d + timedelta(days=days)] *)
Definition date_add (d : date) (days : Z) : result date :=
  let o := toordinal d + days in
  if (0 <? o) && (o <=? MAXORDINAL) then Ok (mkdate o)
  else Raise OverflowError.

Record time : Set := mktime
  { hour : Z; minute : Z; second : Z; microsecond : Z }.

(** A naive [datetime] (no tzinfo). *)
Record datetime : Set := mkdatetime { dt_date : date; dt_time : time }.

(** [datetime.combine(d, t)] *)
Definition combine (d : date) (t : time) : datetime := mkdatetime d t.

Definition datetime_weekday (dt : datetime) : Z := weekday (dt_date dt).

(** [dt + timedelta(days=days)]: the time of day is kept. *)
Definition datetime_add (dt : datetime) (days : Z) : result datetime :=
  let o := toordinal (dt_date dt) + days in
  if (0 <? o) && (o <=? MAXORDINAL)
  then Ok (mkdatetime (mkdate o) (dt_time dt))
  else Raise OverflowError.

End Calendar.
Import Calendar.

(** ** Trading-calendar alignment *)

(** The loop of [next_trading_day]:
    [while date.weekday() >= 5: date += timedelta(days=1)].
    [fuel] bounds the number of times the body may run; [None] means the
    guard still held when the fuel ran out. *)
Fixpoint while_weekend (fuel : nat) (date : Calendar.date)
  : option (result Calendar.date) :=
  if 5 <=? weekday date then
    match fuel with
    | O => None
    | S fuel' =>
        match date_add date 1 with
        | Ok date' => while_weekend fuel' date'
        | Raise e => Some (Raise e)
        end
    end
  else Some (Ok date).

Definition next_trading_day (fuel : nat) (date : Calendar.date)
  : option (result Calendar.date) :=
  match date_add date 1 with
  | Ok date' => while_weekend fuel date'
  | Raise e => Some (Raise e)
  end.

Definition shift_to_market_open (filing_date : date) : result datetime :=
  let market_open_time := mktime 9 30 0 0 in
  let market_open_datetime := combine filing_date market_open_time in
  if 5 <=? datetime_weekday market_open_datetime then
    datetime_add market_open_datetime
                 (7 - datetime_weekday market_open_datetime)
  else Ok market_open_datetime.

(** ** [datetime.strptime(data_string, '%Y-%m-%d')]

    The library turns the format into the regular expression
    [(?P<Y>\d\d\d\d)-(?P<m>1[0-2]|0[1-9]|[1-9])-(?P<d>3[0-1]|[1-2]\d|0[1-9]|[1-9]| [1-9])],
    matches it at the start of the text, rejects text left over after the
    match, converts the groups with [int] and builds the date
    ([Lib/_strptime.py]). Every failure is a [ValueError]. *)

Module Strptime.

(** A backtracking matcher: all the ways to match a prefix, in the order
    the regular-expression engine tries them. *)
Definition matcher (A : Type) : Type := list ascii -> list (A * list ascii).

Definition m_ret {A} (a : A) : matcher A := fun s => [(a, s)].

Definition m_seq {A B} (p : matcher A) (k : A -> matcher B) : matcher B :=
  fun s => flat_map (fun ar => k (fst ar) (snd ar)) (p s).

Definition m_alt {A} (p q : matcher A) : matcher A := fun s => p s ++ q s.

Definition digit_val (c : ascii) : option Z :=
  let n := Z.of_N (N_of_ascii c) in
  if (48 <=? n) && (n <=? 57) then Some (n - 48) else None.

(** One digit whose value lies in [lo..hi]: the classes [\d], [[0-2]],
    [[1-9]], and single digits. *)
Definition m_digit (lo hi : Z) : matcher Z :=
  fun s =>
    match s with
    | c :: rest =>
        match digit_val c with
        | Some v => if (lo <=? v) && (v <=? hi) then [(v, rest)] else []
        | None => []
        end
    | [] => []
    end.

Definition m_char (c : ascii) : matcher unit :=
  fun s =>
    match s with
    | c' :: rest => if Ascii.eqb c c' then [(tt, rest)] else []
    | [] => []
    end.

(** Two digits, read as a decimal number. *)
Definition m_two (lo1 hi1 lo2 hi2 : Z) : matcher Z :=
  m_seq (m_digit lo1 hi1) (fun a =>
  m_seq (m_digit lo2 hi2) (fun b => m_ret (10 * a + b))).

(** [(?P<Y>\d\d\d\d)] *)
Definition re_Y : matcher Z :=
  m_seq (m_two 0 9 0 9) (fun hi =>
  m_seq (m_two 0 9 0 9) (fun lo => m_ret (100 * hi + lo))).

(** [(?P<m>1[0-2]|0[1-9]|[1-9])] *)
Definition re_m : matcher Z :=
  m_alt (m_two 1 1 0 2) (m_alt (m_two 0 0 1 9) (m_digit 1 9)).

(** [(?P<d>3[0-1]|[1-2]\d|0[1-9]|[1-9]| [1-9])] *)
Definition re_d : matcher Z :=
  m_alt (m_two 3 3 0 1)
 (m_alt (m_two 1 2 0 9)
 (m_alt (m_two 0 0 1 9)
 (m_alt (m_digit 1 9)
        (m_seq (m_char " "%char) (fun _ => m_digit 1 9))))).

Definition re_Ymd : matcher (Z * Z * Z) :=
  m_seq re_Y (fun year =>
  m_seq (m_char "-"%char) (fun _ =>
  m_seq re_m (fun month =>
  m_seq (m_char "-"%char) (fun _ =>
  m_seq re_d (fun day => m_ret (year, month, day)))))).

Definition strptime_Ymd (data_string : string) : result datetime :=
  match re_Ymd (list_ascii_of_string data_string) with
  | [] => Raise ValueError                  (* does not match the format *)
  | (_, _ :: _) :: _ => Raise ValueError    (* unconverted data remains *)
  | ((year, month, day), []) :: _ =>
      d ← date_of_ymd year month day;
      Ok (combine d (mktime 0 0 0 0))
  end.

End Strptime.
Import Strptime.

(** ** Python values and the XBRL data *)

(** The values a fact can hold. Immutable scalars are kept by value; any
    other object (a nested list or dict) is kept by identity, which is all
    a shallow copy sees of it. [PyFloat] carries the IEEE-754 bits. *)
Inductive pyval : Set :=
| PyNone
| PyBool (b : bool)
| PyInt (n : Z)
| PyFloat (bits : Z)
| PyStr (s : string)
| PyDatetime (dt : datetime)
| PyRef (addr : positive).

(** [datetime.strptime(v, '%Y-%m-%d')]: a [TypeError] unless [v] is a
    [str]. *)
Definition strptime (v : pyval) : result datetime :=
  match v with
  | PyStr s => strptime_Ymd s
  | _ => Raise TypeError
  end.

(** A FilingFact and an ExtractedRow are dicts with string keys. *)
Abbreviation fact := (gmap string pyval) (only parsing).
Abbreviation row := (gmap string pyval) (only parsing).

(** A dict whose iteration order is observed: the bindings in insertion
    order. *)
Definition dict_keys {V} (d : list (string * V)) : list string := d.*1.

Fixpoint dict_get {V} (k : string) (d : list (string * V)) : option V :=
  match d with
  | [] => None
  | (k', v) :: d' => if String.eqb k k' then Some v else dict_get k d'
  end.

(** XBRLData: namespace -> metric key -> facts. *)
Abbreviation XBRLData := (list (string * gmap string (list (gmap string pyval))))
  (only parsing).

(** ** Metric extraction *)

Section ExtractMetrics.

(** The module-level flag; the other flags only select [print] calls. *)
Variable print_metrics : bool.
Variable xbrl_data : XBRLData.

(** Body of [for namespace_data in xbrl_data[namespace][metric]]. *)
Definition extract_fact (metric namespace : string) (namespace_data : fact)
    (metrics_data : list row) : result (list row) :=
  match namespace_data !! "filed" with
  | Some filed =>
      try_except_ValueError
        (dt ← strptime filed;
         let filing_date := dt_date dt in
         market_day ← shift_to_market_open filing_date;
         let row := namespace_data in
         let row := <["market_day" := PyDatetime market_day]> row in
         let row := <["namespace" := PyStr namespace]> row in
         let row := <["content" := PyStr metric]> row in
         Ok (metrics_data ++ [row]))
        (Ok metrics_data)
  | None => Ok metrics_data
  end.

(** Body of [for namespace in list(xbrl_data.keys())]. *)
Definition extract_namespace (metric namespace : string)
    (metrics_data : list row) : result (list row) :=
  match dict_get namespace xbrl_data with
  | None => Raise KeyError
  | Some namespace_map =>
      match namespace_map !! metric with
      | Some facts =>
          for_each facts (extract_fact metric namespace) metrics_data
      | None =>
          if print_metrics
          then Ok (metrics_data ++ [ {[ "content" := PyStr metric ]} ])
          else Ok metrics_data
      end
  end.

(** Body of [for metric in metrics_list]. *)
Definition extract_metric (metric : string) (metrics_data : list row)
  : result (list row) :=
  for_each (dict_keys xbrl_data) (extract_namespace metric) metrics_data.

Definition extract_metrics_with (metrics_list : list string)
  : result (list row) :=
  for_each metrics_list extract_metric [].

End ExtractMetrics.

Definition print_metrics : bool := false.

Definition extract_metrics (xbrl_data : XBRLData) (metrics_list : list string)
  : result (list row) :=
  extract_metrics_with print_metrics xbrl_data metrics_list.

Definition top_25_metrics : list string :=
  [ "us-gaap_RevenueFromContractWithCustomerExcludingAssessedTax_USD";
    "us-gaap_CostOfGoodsAndServicesSold_USD";
    (* two adjacent literals with no comma between them: one string *)
    "us-gaap_ResearchAndDevelopmentExpense_USD"
      +:+ "us-gaap_NetIncomeLoss_USD";
    "us-gaap_EarningsPerShareBasic_USD/shares";
    "us-gaap_EarningsPerShareDiluted_USD/shares";
    "us-gaap_OperatingIncomeLoss_USD";
    "us-gaap_GrossProfit_USD";
    "us-gaap_Assets_USD";
    "us-gaap_AssetsCurrent_USD";
    "us-gaap_LiabilitiesCurrent_USD";
    "us-gaap_StockholdersEquity_USD";
    "us-gaap_CashCashEquivalentsRestrictedCashAndRestrictedCashEquivalents_USD";
    "us-gaap_CashAndCashEquivalentsAtCarryingValue_USD";
    "us-gaap_CashCashEquivalentsRestrictedCashAndRestrictedCashEquivalentsPeriodIncreaseDecreaseIncludingExchangeRateEffect_USD";
    "us-gaap_NetCashProvidedByUsedInOperatingActivities_USD";
    "us-gaap_NetCashProvidedByUsedInInvestingActivities_USD";
    "us-gaap_NetCashProvidedByUsedInFinancingActivities_USD";
    "us-gaap_InterestExpense_USD";
    "us-gaap_LongTermDebt_USD";
    "us-gaap_DebtInstrumentCarryingAmount_USD";
    "us-gaap_AllocatedShareBasedCompensationExpense_USD";
    "us-gaap_ShareBasedCompensation_USD";
    "us-gaap_IncomeTaxExpenseBenefit_USD";
    "us-gaap_ResearchAndDevelopmentExpense_USD";
    "us-gaap_SellingGeneralAndAdministrativeExpense_USD";
    "us-gaap_InventoryNet_USD" ]%string.

(** [extract_metrics_from_EDGAR_XBRL], after [acquire_xbrl_data] has
    returned [xbrl_data]. *)
Definition extract_metrics_from_EDGAR_XBRL (xbrl_data : XBRLData)
  : result (list row) :=
  let metrics_data := extract_metrics xbrl_data top_25_metrics in
  metrics_data.

(** ** The same extraction over a store of dict objects

    In Python every fact is a dict object and [xbrl_data] holds references
    to them; [dict(namespace_data)] allocates a new object and the three
    assignments that follow update that object in place. The store model
    keeps the dict objects in a heap, so that writing through an alias of
    a fact would be visible. The containers around the facts are only read
    by the code and stay values. *)

Module Heap.

Abbreviation heap := (gmap positive (gmap string pyval)).

(** Computations that read and update the heap and may raise. The heap
    is returned in both cases: updates made before an exception stay. *)
Definition M (A : Type) : Type := heap -> result A * heap.

Definition ret {A} (a : A) : M A := fun h => (Ok a, h).

Definition bind {A B} (m : M A) (k : A -> M B) : M B :=
  fun h =>
    match m h with
    | (Ok a, h') => k a h'
    | (Raise e, h') => (Raise e, h')
    end.

Definition lift {A} (r : result A) : M A := fun h => (r, h).

Definition try_except_ValueError {A} (body handler : M A) : M A :=
  fun h =>
    match body h with
    | (Raise ValueError, h') => handler h'
    | rh => rh
    end.

Fixpoint for_each {A S} (xs : list A) (body : A -> S -> M S) (s : S) : M S :=
  match xs with
  | [] => ret s
  | x :: xs' => bind (body x s) (for_each xs' body)
  end.

(** [key in d] and [d[key]] on the object at [l]. *)
Definition dict_lookup (l : positive) (key : string) : M (option pyval) :=
  fun h =>
    match h !! l with
    | Some d => (Ok (d !! key), h)
    | None => (Raise InvalidRef, h)
    end.

(** [dict(d)]: a new object with the same bindings. *)
Definition dict_copy (l : positive) : M positive :=
  fun h =>
    match h !! l with
    | Some d => let l' := fresh (dom h) in (Ok l', <[l' := d]> h)
    | None => (Raise InvalidRef, h)
    end.

(** [dict()] *)
Definition dict_new : M positive :=
  fun h => let l' := fresh (dom h) in (Ok l', <[l' := ∅]> h).

(** [d[key] = v], in place. *)
Definition dict_setitem (l : positive) (key : string) (v : pyval) : M unit :=
  fun h =>
    match h !! l with
    | Some d => (Ok tt, <[l := <[key := v]> d]> h)
    | None => (Raise InvalidRef, h)
    end.

Section ExtractMetrics.

Variable print_metrics : bool.
(** namespace -> metric key -> references to the fact objects *)
Variable xbrl_data : list (string * gmap string (list positive)).

Definition extract_fact (metric namespace : string)
    (namespace_data : positive) (metrics_data : list positive)
  : M (list positive) :=
  bind (dict_lookup namespace_data "filed") (fun filed_opt =>
  match filed_opt with
  | Some filed =>
      try_except_ValueError
        (bind (lift (strptime filed)) (fun dt =>
         let filing_date := dt_date dt in
         bind (lift (shift_to_market_open filing_date)) (fun market_day =>
         bind (dict_copy namespace_data) (fun row =>
         bind (dict_setitem row "market_day" (PyDatetime market_day)) (fun _ =>
         bind (dict_setitem row "namespace" (PyStr namespace)) (fun _ =>
         bind (dict_setitem row "content" (PyStr metric)) (fun _ =>
         ret (metrics_data ++ [row]))))))))
        (ret metrics_data)
  | None => ret metrics_data
  end).

Definition extract_namespace (metric namespace : string)
    (metrics_data : list positive) : M (list positive) :=
  match dict_get namespace xbrl_data with
  | None => lift (Raise KeyError)
  | Some namespace_map =>
      match namespace_map !! metric with
      | Some facts =>
          for_each facts (extract_fact metric namespace) metrics_data
      | None =>
          if print_metrics
          then
            bind dict_new (fun row =>
            bind (dict_setitem row "content" (PyStr metric)) (fun _ =>
            ret (metrics_data ++ [row])))
          else ret metrics_data
      end
  end.

Definition extract_metric (metric : string) (metrics_data : list positive)
  : M (list positive) :=
  for_each (dict_keys xbrl_data) (extract_namespace metric) metrics_data.

Definition extract_metrics_with (metrics_list : list string)
  : M (list positive) :=
  for_each metrics_list extract_metric [].

End ExtractMetrics.

Definition extract_metrics
    (xbrl_data : list (string * gmap string (list positive)))
    (metrics_list : list string) : M (list positive) :=
  extract_metrics_with print_metrics xbrl_data metrics_list.

(** Every fact reference of [xbrl_data] points to an allocated object. *)
Definition refs_allocated (h : heap)
    (xbrl_data : list (string * gmap string (list positive))) : Prop :=
  forall namespace namespace_map metric facts l,
    (namespace, namespace_map) ∈ xbrl_data ->
    namespace_map !! metric = Some facts -> l ∈ facts -> is_Some (h !! l).

(** The dicts a list of references points to. *)
Definition dicts_at (h : heap) (ls : list positive)
  : list (gmap string pyval) :=
  map (fun l => h !!! l) ls.

(** The value of [xbrl_data] in a heap: every reference replaced by the
    dict it points to. *)
Definition xbrl_value (h : heap)
    (xbrl_data : list (string * gmap string (list positive)))
  : list (string * gmap string (list (gmap string pyval))) :=
  map (fun kv : string * gmap string (list positive) =>
         (kv.1, dicts_at h <$> kv.2))
      xbrl_data.

(** The returned list as values. *)
Definition rows_value (h : heap) (r : result (list positive))
  : result (list (gmap string pyval)) :=
  match r with
  | Ok ls => Ok (dicts_at h ls)
  | Raise e => Raise e
  end.

(** A heap computation [m] that threads a list of references does, from
    any heap that extends [h], what the value-level computation [p] does
    on the dicts the references point to, and only adds objects. *)
Definition refines (h : heap) (m : list positive -> M (list positive))
    (p : list (gmap string pyval) -> result (list (gmap string pyval)))
  : Prop :=
  forall acc h0,
    h ⊆ h0 -> Forall (fun l => is_Some (h0 !! l)) acc ->
    exists r h',
      m acc h0 = (r, h')
      /\ h0 ⊆ h'
      /\ match r with
         | Ok ls =>
             Forall (fun l => is_Some (h' !! l)) ls
             /\ p (dicts_at h0 acc) = Ok (dicts_at h' ls)
         | Raise e => p (dicts_at h0 acc) = Raise e
         end.

End Heap.


(** ** Closed forms used in the statements *)

(** How far [next_trading_day] moves a date: over the weekend from a
    Friday, over Sunday from a Saturday, one day otherwise. *)
Definition days_to_next_trading_day (d : date) : Z :=
  if weekday d =? 4 then 3 else if weekday d =? 5 then 2 else 1.

(** The date [shift_to_market_open] lands on, at 09:30. *)
Definition market_open (d : date) : datetime :=
  combine (mkdate (toordinal d + (if 5 <=? weekday d then 7 - weekday d else 0)))
          (mktime 9 30 0 0).

(** ** The specification's vocabulary for [extract_metrics] *)

(** The fact has a [filed] field parseable as [YYYY-MM-DD]: the parsed
    date. *)
Definition filed_date (namespace_data : fact) : option date :=
  match namespace_data !! "filed" with
  | Some (PyStr s) =>
      match strptime_Ymd s with
      | Ok dt => Some (dt_date dt)
      | Raise _ => None
      end
  | _ => None
  end.

(** The (metric, namespace, fact) triples with metric in [metrics_list],
    namespace a key of [xbrl_data] and metric a key of
    [xbrl_data[namespace]], each occurrence counted, metric outermost and
    fact innermost. *)
Definition triples (xbrl_data : XBRLData) (metrics_list : list string)
  : list (string * string * fact) :=
  metric ← metrics_list;
  namespace ← dict_keys xbrl_data;
  namespace_map ← option_list (dict_get namespace xbrl_data);
  facts ← option_list (namespace_map !! metric);
  namespace_data ← facts;
  [(metric, namespace, namespace_data)].

(** A shallow copy of the fact's fields together with the three added
    keys. *)
Definition ExtractedRow (metric namespace : string) (namespace_data : fact)
    (market_day : datetime) : row :=
  {[ "content" := PyStr metric;
     "namespace" := PyStr namespace;
     "market_day" := PyDatetime market_day ]} ∪ namespace_data.

(** The row that belongs to a triple. *)
Definition row_of_triple (t : string * string * fact) (r : row) : Prop :=
  exists d market_day,
    filed_date t.2 = Some d
    /\ shift_to_market_open d = Ok market_day
    /\ r = ExtractedRow t.1.1 t.1.2 t.2 market_day.

(** Input typing: in the facts under the requested metrics a [filed]
    field, when present, holds text. *)
Definition filed_is_text (xbrl_data : XBRLData) (metrics_list : list string)
  : Prop :=
  forall t v, t ∈ triples xbrl_data metrics_list ->
              t.2 !! "filed" = Some v -> exists s, v = PyStr s.

(** A loop body that only appends to the list it threads. *)
Definition appends {A B} (body : A -> list B -> result (list B)) : Prop :=
  forall x acc,
    body x acc = rbind (body x []) (fun new => Ok (acc ++ new)).

(** Running [f] and then [g] and joining the two lists. *)
Definition then_append {B} (f g : result (list B)) : result (list B) :=
  rbind f (fun r1 => rbind g (fun r2 => Ok (r1 ++ r2))).

(** The [market_day] values of a list of rows. *)
Definition market_days (rows : list row) : list (option pyval) :=
  map (fun r : row => r !! "market_day") rows.

(** ** Sample data *)

(** The fact of the specification's examples, with the given [filed]
    text. *)
Definition sample_fact (filed : string) : fact :=
  {[ "val" := PyInt 100; "filed" := PyStr filed; "form" := PyStr "10-K" ]}.

Definition sample_xbrl (metric : string) (facts : list fact) : XBRLData :=
  [("us-gaap"%string, {[ metric := facts ]})].

Definition NetIncomeLoss : string := "us-gaap_NetIncomeLoss_USD".
Definition ResearchAndDevelopmentExpense : string :=
  "us-gaap_ResearchAndDevelopmentExpense_USD".

(** The fact lacks a [filed] field, or its [filed] text does not parse as
    [YYYY-MM-DD]. *)
Definition unparsable_filed (namespace_data : fact) : Prop :=
  namespace_data !! "filed" = None
  \/ exists s, namespace_data !! "filed" = Some (PyStr s)
               /\ forall dt, strptime_Ymd s <> Ok dt.

(** Two facts filed on Monday 2024-02-05 and on Friday 2024-02-02, in that
    order. *)
Definition later_then_earlier : XBRLData :=
  sample_xbrl NetIncomeLoss [sample_fact "2024-02-05"; sample_fact "2024-02-02"].

(** A fact filed on 2024-02-02 followed by one whose [filed] field is the
    number 20240202. *)
Definition filed_number_xbrl : XBRLData :=
  sample_xbrl NetIncomeLoss
    [sample_fact "2024-02-02"; {[ "filed" := PyInt 20240202 ]}].

(** A store with one fact object, at address 1, and an [xbrl_data] that
    refers to it. *)
Definition sample_heap : Heap.heap := {[ 1%positive := sample_fact "2024-02-03" ]}.

Definition sample_refs : list (string * gmap string (list positive)) :=
  [("us-gaap"%string, {[ NetIncomeLoss := [1%positive] ]})].

(** * Properties *)

(** A concrete date lies in the library's range: by computation. *)
Ltac date_in_range_by_computation :=
  unfold date_in_range; vm_compute; split; discriminate.

(** ** The calendar *)

Example ymd2ord_date_max : ymd2ord 9999 12 31 = MAXORDINAL.
Proof. reflexivity. Qed.

Example ymd2ord_2024_02_02 : ymd2ord 2024 2 2 = 738918.
Proof. reflexivity. Qed.

Example date_max_is_friday : weekday date_max = 4.
Proof. reflexivity. Qed.

Lemma weekday_range (d : date) : 0 <= weekday d < 7.
Proof. unfold weekday. apply Z.mod_pos_bound. lia. Qed.

Lemma weekday_shift (d : date) (k : Z) :
  weekday (mkdate (toordinal d + k)) = (weekday d + k) mod 7.
Proof.
  unfold weekday; simpl.
  rewrite Zplus_mod_idemp_l. f_equal. lia.
Qed.

Lemma date_add_in_range (d : date) (k : Z) :
  0 < toordinal d + k <= MAXORDINAL ->
  date_add d k = Ok (mkdate (toordinal d + k)).
Proof.
  intros [Hlo Hhi]. unfold date_add.
  destruct (Z.ltb_spec 0 (toordinal d + k)); [|lia].
  destruct (Z.leb_spec (toordinal d + k) MAXORDINAL); [|lia].
  reflexivity.
Qed.

Lemma date_add_overflow (d : date) (k : Z) :
  MAXORDINAL < toordinal d + k -> date_add d k = Raise OverflowError.
Proof.
  intros H. unfold date_add.
  destruct (Z.leb_spec (toordinal d + k) MAXORDINAL); [lia|].
  now rewrite andb_false_r.
Qed.

(** A weekend day in range is at least two days before [date.max], which
    is a Friday: moving to the next Monday cannot overflow. *)
Lemma weekend_before_max (d : date) :
  date_in_range d -> 5 <= weekday d ->
  toordinal d + (7 - weekday d) <= MAXORDINAL.
Proof.
  unfold date_in_range, weekday, MAXORDINAL. intros Hr Hw.
  Z.div_mod_to_equations. lia.
Qed.

Lemma while_weekend_exit (fuel : nat) (d : date) :
  weekday d <= 4 -> while_weekend fuel d = Some (Ok d).
Proof.
  intros H. destruct fuel; simpl;
    destruct (Z.leb_spec 5 (weekday d)); (lia || reflexivity).
Qed.

Lemma while_weekend_step (fuel : nat) (d : date) :
  5 <= weekday d -> toordinal d < MAXORDINAL -> 0 < toordinal d ->
  while_weekend (S fuel) d = while_weekend fuel (mkdate (toordinal d + 1)).
Proof.
  intros Hw Hlt Hpos. simpl.
  destruct (Z.leb_spec 5 (weekday d)); [|lia].
  rewrite date_add_in_range by lia. reflexivity.
Qed.

(** ** [shift_to_market_open] *)

Lemma datetime_add_in_range (dt : datetime) (k : Z) :
  0 < toordinal (dt_date dt) + k <= MAXORDINAL ->
  datetime_add dt k
    = Ok (mkdatetime (mkdate (toordinal (dt_date dt) + k)) (dt_time dt)).
Proof.
  intros [Hlo Hhi]. unfold datetime_add.
  destruct (Z.ltb_spec 0 (toordinal (dt_date dt) + k)); [|lia].
  destruct (Z.leb_spec (toordinal (dt_date dt) + k) MAXORDINAL); [|lia].
  reflexivity.
Qed.

(** [shift_to_market_open] never raises on a date of the library's range. *)
Lemma shift_to_market_open_total (d : date) :
  date_in_range d ->
  exists dt, shift_to_market_open d = Ok dt
             /\ dt_time dt = mktime 9 30 0 0
             /\ date_in_range (dt_date dt).
Proof.
  intros Hr. unfold shift_to_market_open, datetime_weekday, combine; simpl.
  destruct (Z.leb_spec 5 (weekday d)) as [Hw|Hw].
  - pose proof (weekend_before_max d Hr Hw) as Hmax.
    pose proof (weekday_range d) as Hwr. unfold date_in_range in *.
    rewrite datetime_add_in_range by (simpl; lia).
    eexists; split; [reflexivity|]. simpl. split; [reflexivity|lia].
  - eexists; split; [reflexivity|]. simpl. split; [reflexivity|assumption].
Qed.

(** C3: a Saturday is moved to the Monday two days later and a Sunday to
    the Monday one day later, both at 09:30, and the move is the addition
    of [7 - weekday] days to the combined timestamp. *)
Theorem shift_to_market_open_weekend (d : date) :
  date_in_range d -> 5 <= weekday d ->
  shift_to_market_open d
    = datetime_add (combine d (mktime 9 30 0 0)) (7 - weekday d)
  /\ (weekday d = 5 ->
      shift_to_market_open d
        = Ok (combine (mkdate (toordinal d + 2)) (mktime 9 30 0 0))
      /\ weekday (mkdate (toordinal d + 2)) = 0)
  /\ (weekday d = 6 ->
      shift_to_market_open d
        = Ok (combine (mkdate (toordinal d + 1)) (mktime 9 30 0 0))
      /\ weekday (mkdate (toordinal d + 1)) = 0).
Proof.
  intros Hr Hw.
  pose proof (weekend_before_max d Hr Hw) as Hmax.
  assert (Hshift : shift_to_market_open d
            = datetime_add (combine d (mktime 9 30 0 0)) (7 - weekday d)).
  { unfold shift_to_market_open, datetime_weekday; simpl.
    destruct (Z.leb_spec 5 (weekday d)); [reflexivity|lia]. }
  split; [exact Hshift|].
  unfold date_in_range in Hr.
  split; intros Hday; rewrite Hshift, Hday.
  - change (7 - 5) with 2. rewrite datetime_add_in_range by (simpl; lia).
    split; [reflexivity|]. rewrite weekday_shift, Hday. reflexivity.
  - change (7 - 6) with 1. rewrite datetime_add_in_range by (simpl; lia).
    split; [reflexivity|]. rewrite weekday_shift, Hday. reflexivity.
Qed.

(** 2024-02-03 is a Saturday and 2024-02-04 a Sunday; both are moved to
    Monday 2024-02-05, 09:30. *)
Lemma shift_to_market_open_weekend_witness :
  shift_to_market_open (mkdate (ymd2ord 2024 2 3))
    = Ok (combine (mkdate (ymd2ord 2024 2 5)) (mktime 9 30 0 0))
  /\ shift_to_market_open (mkdate (ymd2ord 2024 2 4))
    = Ok (combine (mkdate (ymd2ord 2024 2 5)) (mktime 9 30 0 0)).
Proof.
  split.
  - refine (proj1 (proj1 (proj2
      (shift_to_market_open_weekend (mkdate (ymd2ord 2024 2 3)) _ _)) _)).
    + date_in_range_by_computation.
    + vm_compute; discriminate.
    + reflexivity.
  - refine (proj1 (proj2 (proj2
      (shift_to_market_open_weekend (mkdate (ymd2ord 2024 2 4)) _ _)) _)).
    + date_in_range_by_computation.
    + vm_compute; discriminate.
    + reflexivity.
Defined.

(** C4: on Monday to Friday the result is the date itself at 09:30, a
    naive timestamp. *)
Theorem shift_to_market_open_weekday (d : date) :
  weekday d <= 4 ->
  shift_to_market_open d = Ok (combine d (mktime 9 30 0 0))
  /\ forall dt, shift_to_market_open d = Ok dt ->
       dt_date dt = d /\ dt_time dt = mktime 9 30 0 0.
Proof.
  intros Hw.
  assert (H : shift_to_market_open d = Ok (combine d (mktime 9 30 0 0))).
  { unfold shift_to_market_open, datetime_weekday; simpl.
    destruct (Z.leb_spec 5 (weekday d)); [lia|reflexivity]. }
  split; [exact H|].
  intros dt Hdt. rewrite H in Hdt. injection Hdt as <-. split; reflexivity.
Qed.

(** 2024-02-02 is a Friday. *)
Lemma shift_to_market_open_weekday_witness :
  shift_to_market_open (mkdate (ymd2ord 2024 2 2))
    = Ok (combine (mkdate (ymd2ord 2024 2 2)) (mktime 9 30 0 0)).
Proof.
  refine (proj1 (shift_to_market_open_weekday (mkdate (ymd2ord 2024 2 2)) _)).
  vm_compute; discriminate.
Defined.

(** ** [next_trading_day] *)

(** With room for two runs of the loop body the function returns, and the
    result is the input moved by [days_to_next_trading_day]. *)
Lemma next_trading_day_closed_form (d : date) (fuel : nat) :
  date_in_range d -> toordinal d < MAXORDINAL -> (2 <= fuel)%nat ->
  next_trading_day fuel d
    = Some (Ok (mkdate (toordinal d + days_to_next_trading_day d))).
Proof.
  intros Hr Hlt Hfuel.
  destruct fuel as [|[|fuel]]; [lia|lia|].
  pose proof (weekday_range d) as Hw.
  unfold date_in_range in Hr.
  unfold next_trading_day, days_to_next_trading_day.
  rewrite date_add_in_range by lia.
  set (d1 := mkdate (toordinal d + 1)).
  assert (Hw1 : weekday d1 = (weekday d + 1) mod 7) by apply weekday_shift.
  destruct (Z.eqb_spec (weekday d) 4) as [H4|H4].
  - (* Friday: Saturday and Sunday are skipped *)
    rewrite H4 in Hw1; change ((4 + 1) mod 7) with 5 in Hw1.
    assert (Hmax : toordinal d1 + (7 - weekday d1) <= MAXORDINAL).
    { apply weekend_before_max; [unfold date_in_range; simpl; lia|lia]. }
    rewrite Hw1 in Hmax; simpl in Hmax.
    rewrite while_weekend_step by (simpl; lia).
    rewrite while_weekend_step.
    + rewrite while_weekend_exit.
      * simpl. do 3 f_equal. lia.
      * rewrite !weekday_shift, Hw1. vm_compute. discriminate.
    + rewrite weekday_shift, Hw1. vm_compute. discriminate.
    + simpl. lia.
    + simpl. lia.
  - destruct (Z.eqb_spec (weekday d) 5) as [H5|H5].
    + (* Saturday: Sunday is skipped *)
      rewrite H5 in Hw1; change ((5 + 1) mod 7) with 6 in Hw1.
      assert (Hmax : toordinal d1 + (7 - weekday d1) <= MAXORDINAL).
      { apply weekend_before_max; [unfold date_in_range; simpl; lia|lia]. }
      rewrite Hw1 in Hmax; simpl in Hmax.
      rewrite while_weekend_step by (simpl; lia).
      rewrite while_weekend_exit.
      * simpl. do 3 f_equal. lia.
      * rewrite weekday_shift, Hw1. vm_compute. discriminate.
    + (* the next day is Monday to Friday *)
      rewrite while_weekend_exit; [reflexivity|].
      rewrite Hw1. Z.div_mod_to_equations. lia.
Qed.

(** At [date.max] the first [date += timedelta(days=1)] overflows. *)
Lemma next_trading_day_at_date_max (fuel : nat) :
  next_trading_day fuel date_max = Some (Raise OverflowError).
Proof. reflexivity. Qed.

(** C5, as stated, fails at [date.max] (9999-12-31): it is a calendar
    date, and [next_trading_day] raises [OverflowError] on it instead of
    returning a later date. *)
Lemma next_trading_day_date_max_raises :
  date_in_range date_max
  /\ (forall fuel, next_trading_day fuel date_max = Some (Raise OverflowError))
  /\ ~ (exists fuel r, next_trading_day fuel date_max = Some (Ok r)).
Proof.
  split; [date_in_range_by_computation|].
  split; [exact next_trading_day_at_date_max|].
  intros (fuel & r & H). rewrite next_trading_day_at_date_max in H.
  discriminate.
Qed.

(** C5, amended: for every calendar date [d] before [date.max],
    [next_trading_day d] returns [d+1] if that is Monday to Friday and
    otherwise the first Monday after it; the result is strictly later than
    [d] and is not a Saturday or Sunday. *)
Theorem next_trading_day_spec (d : date) (fuel : nat) :
  date_in_range d -> toordinal d < MAXORDINAL -> (2 <= fuel)%nat ->
  exists r,
    next_trading_day fuel d = Some (Ok r)
    /\ (weekday (mkdate (toordinal d + 1)) <= 4 ->
        toordinal r = toordinal d + 1)
    /\ (5 <= weekday (mkdate (toordinal d + 1)) ->
        weekday r = 0
        /\ toordinal d + 1 < toordinal r
        /\ forall e, toordinal d + 1 < e < toordinal r ->
                     weekday (mkdate e) <> 0)
    /\ toordinal d < toordinal r
    /\ weekday r <= 4
    /\ date_in_range r.
Proof.
  intros Hr Hlt Hfuel.
  exists (mkdate (toordinal d + days_to_next_trading_day d)).
  split; [apply next_trading_day_closed_form; assumption|].
  pose proof (weekday_range d) as Hw.
  assert (Hw1 : weekday (mkdate (toordinal d + 1)) = (weekday d + 1) mod 7)
    by apply weekday_shift.
  assert (Hmax : 5 <= weekday (mkdate (toordinal d + 1)) ->
                 toordinal d + 1 + (7 - weekday (mkdate (toordinal d + 1)))
                 <= MAXORDINAL).
  { intros H5.
    apply (weekend_before_max (mkdate (toordinal d + 1)));
      [unfold date_in_range in *; simpl; lia|exact H5]. }
  assert (Hwe : forall e k, e = toordinal d + k ->
                            weekday (mkdate e) = (weekday d + k) mod 7).
  { intros e k ->. apply weekday_shift. }
  rewrite Hw1 in *. unfold date_in_range in *. simpl.
  rewrite !weekday_shift.
  unfold days_to_next_trading_day.
  destruct (Z.eqb_spec (weekday d) 4) as [H4|H4].
  - rewrite H4 in *. change ((4 + 1) mod 7) with 5 in *.
    change ((4 + 3) mod 7) with 0. specialize (Hmax ltac:(lia)).
    repeat split; try lia.
    intros e He. rewrite (Hwe e 2) by lia. vm_compute. discriminate.
  - destruct (Z.eqb_spec (weekday d) 5) as [H5|H5].
    + rewrite H5 in *. change ((5 + 1) mod 7) with 6 in *.
      change ((5 + 2) mod 7) with 0. specialize (Hmax ltac:(lia)).
      repeat split; try lia.
    + assert (Hnext : (weekday d + 1) mod 7 <= 4)
        by (Z.div_mod_to_equations; lia).
      repeat split; try lia.
Qed.

(** Friday 2024-02-02 is followed by Monday 2024-02-05. *)
Lemma next_trading_day_spec_witness :
  exists r,
    next_trading_day 2 (mkdate (ymd2ord 2024 2 2)) = Some (Ok r)
    /\ weekday r = 0
    /\ toordinal (mkdate (ymd2ord 2024 2 2)) < toordinal r.
Proof.
  destruct (next_trading_day_spec (mkdate (ymd2ord 2024 2 2)) 2)
    as (r & Hrun & _ & Hmon & Hgt & _).
  - date_in_range_by_computation.
  - vm_compute; reflexivity.
  - lia.
  - exists r. split; [exact Hrun|]. split; [|exact Hgt].
    apply Hmon. vm_compute; discriminate.
Defined.

(** C10, as stated, fails at [date.max]: it is a Friday, yet no date
    three days later is returned, for any number of loop iterations. *)
Lemma next_trading_day_friday_date_max :
  date_in_range date_max
  /\ weekday date_max = 4
  /\ ~ (exists fuel r,
          next_trading_day fuel date_max = Some (Ok r)
          /\ toordinal r = toordinal date_max + 3).
Proof.
  split; [date_in_range_by_computation|].
  split; [reflexivity|].
  intros (fuel & r & H & _). rewrite next_trading_day_at_date_max in H.
  discriminate.
Qed.

(** C10, amended: [next_trading_day] terminates on every date, its loop
    body running at most twice; on a date before [date.max] it returns a
    date at most 3 days later, exactly 3 days later just when the input is a
    Friday; on [date.max] it raises [OverflowError] before the loop. *)
Theorem next_trading_day_terminates (d : date) :
  date_in_range d ->
  exists r,
    (forall fuel, (2 <= fuel)%nat -> next_trading_day fuel d = Some r)
    /\ (toordinal d < MAXORDINAL ->
        exists d', r = Ok d'
                   /\ toordinal d' <= toordinal d + 3
                   /\ (toordinal d' = toordinal d + 3 <-> weekday d = 4))
    /\ (toordinal d = MAXORDINAL -> r = Raise OverflowError).
Proof.
  intros Hr.
  destruct (Z.eq_dec (toordinal d) MAXORDINAL) as [Hmax|Hmax].
  - exists (Raise OverflowError). split; [|split; [lia|reflexivity]].
    intros fuel _. unfold next_trading_day.
    rewrite date_add_overflow by lia. reflexivity.
  - assert (Hlt : toordinal d < MAXORDINAL)
      by (unfold date_in_range in Hr; lia).
    exists (Ok (mkdate (toordinal d + days_to_next_trading_day d))).
    split; [intros fuel Hfuel; apply next_trading_day_closed_form; assumption|].
    split; [|lia]. intros _. eexists; split; [reflexivity|]. simpl.
    unfold days_to_next_trading_day.
    destruct (Z.eqb_spec (weekday d) 4); [lia|].
    destruct (Z.eqb_spec (weekday d) 5); lia.
Qed.

(** From Friday 2024-02-02 the loop needs both iterations. *)
Lemma next_trading_day_terminates_witness :
  exists r, forall fuel, (2 <= fuel)%nat ->
    next_trading_day fuel (mkdate (ymd2ord 2024 2 2)) = Some r.
Proof.
  destruct (next_trading_day_terminates (mkdate (ymd2ord 2024 2 2)))
    as (r & Hrun & _).
  - date_in_range_by_computation.
  - exists r. exact Hrun.
Defined.

(** One iteration is not enough from a Friday: the bound of two is
    reached. *)
Example next_trading_day_needs_two_iterations :
  next_trading_day 1 (mkdate (ymd2ord 2024 2 2)) = None
  /\ next_trading_day 2 (mkdate (ymd2ord 2024 2 2))
     = Some (Ok (mkdate (ymd2ord 2024 2 5))).
Proof. split; reflexivity. Qed.

(** ** Loops *)

Lemma for_each_app {A S} (xs ys : list A) (body : A -> S -> result S) (s : S) :
  for_each (xs ++ ys) body s = rbind (for_each xs body s) (for_each ys body).
Proof.
  revert s. induction xs as [|x xs IH]; intros s; simpl; [reflexivity|].
  destruct (body x s) as [s'|e]; simpl; [apply IH|reflexivity].
Qed.

Lemma for_each_ext {A S} (xs : list A) (body body' : A -> S -> result S) s :
  (forall x s, x ∈ xs -> body x s = body' x s) ->
  for_each xs body s = for_each xs body' s.
Proof.
  revert s. induction xs as [|x xs IH]; intros s Hext; simpl; [reflexivity|].
  rewrite Hext by left.
  destruct (body' x s); simpl; [|reflexivity].
  apply IH. intros y s' Hy. apply Hext. now right.
Qed.

Lemma for_each_appends {A B} (body : A -> list B -> result (list B)) :
  appends body ->
  forall xs acc,
    for_each xs body acc
    = rbind (for_each xs body []) (fun new => Ok (acc ++ new)).
Proof.
  intros Hb xs. induction xs as [|x xs IH]; intros acc; simpl.
  - now rewrite app_nil_r.
  - rewrite (Hb x acc). destruct (body x []) as [n|e]; simpl; [|reflexivity].
    rewrite (IH (acc ++ n)), (IH n).
    destruct (for_each xs body []) as [m|e]; simpl; [|reflexivity].
    now rewrite app_assoc.
Qed.

Lemma for_each_appends_body {A A' B}
    (body : A -> list B -> result (list B)) (xs : A' -> list A) :
  appends body -> appends (fun x' => for_each (xs x') body).
Proof. intros Hb x' acc. now apply for_each_appends. Qed.

Lemma for_each_then_append {A B} (body : A -> list B -> result (list B))
    (xs ys : list A) :
  appends body ->
  for_each (xs ++ ys) body []
  = then_append (for_each xs body []) (for_each ys body []).
Proof.
  intros Hb. rewrite for_each_app. unfold then_append.
  destruct (for_each xs body []) as [r1|e]; simpl; [|reflexivity].
  now rewrite (for_each_appends body Hb ys r1).
Qed.

(** A loop over a list built by [bind] is the nest of the two loops. *)
Lemma for_each_bind {A A' S} (f : A' -> list A) (body : A -> S -> result S)
    (xs : list A') (s : S) :
  for_each (xs ≫= f) body s = for_each xs (fun x' => for_each (f x') body) s.
Proof.
  revert s. induction xs as [|x xs IH]; intros s; [reflexivity|].
  rewrite bind_cons, for_each_app. simpl.
  destruct (for_each (f x) body s); simpl; [apply IH|reflexivity].
Qed.

(** ** Dictionaries *)

Lemma dict_get_keys {V} (d : list (string * V)) (k : string) :
  k ∈ dict_keys d -> is_Some (dict_get k d).
Proof.
  unfold dict_keys. induction d as [|[k' v] d IH]; simpl.
  - intros H. inversion H.
  - intros H. destruct (String.eqb_spec k k') as [->|Hne]; [eauto|].
    apply IH. inversion H; subst; [congruence|assumption].
Qed.

Lemma ExtractedRow_inserts metric namespace (namespace_data : fact) market_day :
  <["content" := PyStr metric]>
    (<["namespace" := PyStr namespace]>
       (<["market_day" := PyDatetime market_day]> namespace_data))
  = ExtractedRow metric namespace namespace_data market_day.
Proof.
  unfold ExtractedRow. apply map_eq. intros k.
  rewrite lookup_union.
  destruct (decide (k = "content")) as [->|H1];
    [rewrite !lookup_insert_eq; simpl;
     now destruct (namespace_data !! "content")|].
  rewrite !(lookup_insert_ne _ "content") by congruence.
  destruct (decide (k = "namespace")) as [->|H2];
    [rewrite !lookup_insert_eq; simpl;
     now destruct (namespace_data !! "namespace")|].
  rewrite !(lookup_insert_ne _ "namespace") by congruence.
  destruct (decide (k = "market_day")) as [->|H3];
    [rewrite lookup_insert_eq, lookup_singleton_eq; simpl;
     now destruct (namespace_data !! "market_day")|].
  rewrite lookup_insert_ne, lookup_singleton_ne by congruence.
  now destruct (namespace_data !! k).
Qed.

(** The three added keys hold the new values; every other key holds what
    the fact held. *)
Lemma ExtractedRow_lookup metric namespace (namespace_data : fact) market_day k :
  ExtractedRow metric namespace namespace_data market_day !! k
  = if decide (k = "content") then Some (PyStr metric)
    else if decide (k = "namespace") then Some (PyStr namespace)
    else if decide (k = "market_day") then Some (PyDatetime market_day)
    else namespace_data !! k.
Proof.
  rewrite <- ExtractedRow_inserts.
  destruct (decide (k = "content")) as [->|H1];
    [now rewrite lookup_insert_eq|].
  rewrite lookup_insert_ne by congruence.
  destruct (decide (k = "namespace")) as [->|H2];
    [now rewrite lookup_insert_eq|].
  rewrite lookup_insert_ne by congruence.
  destruct (decide (k = "market_day")) as [->|H3];
    [now rewrite lookup_insert_eq|].
  now rewrite lookup_insert_ne by congruence.
Qed.

(** ** [strptime] *)

Lemma date_of_ymd_in_range (year month day : Z) (d : date) :
  date_of_ymd year month day = Ok d -> date_in_range d.
Proof.
  unfold date_of_ymd, MINYEAR, MAXYEAR.
  destruct (Z.leb_spec 1 year) as [Hy1|]; [|discriminate].
  destruct (Z.leb_spec year 9999) as [Hy2|]; [|discriminate].
  destruct (Z.leb_spec 1 month) as [Hm1|]; [|discriminate].
  destruct (Z.leb_spec month 12) as [Hm2|]; [|discriminate].
  destruct (Z.leb_spec 1 day) as [Hd1|]; [|discriminate].
  destruct (Z.leb_spec day (days_in_month year month)) as [Hd2|];
    [|discriminate].
  simpl. intros [= <-]. unfold date_in_range, ymd2ord; simpl.
  assert (Hdby : 0 <= days_before_year year
                 /\ (year <= 9998 -> days_before_year year <= 3651329)
                 /\ (year = 9999 -> days_before_year year = 3651694)).
  { unfold days_before_year. split; [|split].
    - Z.div_mod_to_equations. lia.
    - intros ?. Z.div_mod_to_equations. lia.
    - intros ->. reflexivity. }
  assert (Hleap : year = 9999 -> is_leap year = false) by (now intros ->).
  assert (Hdbm : 0 <= days_before_month year month
                 /\ days_before_month year month + day
                    <= 365 + (if is_leap year then 1 else 0)).
  { revert Hd2. unfold days_before_month, days_in_month.
    assert (Hcases : month = 1 \/ month = 2 \/ month = 3 \/ month = 4
                     \/ month = 5 \/ month = 6 \/ month = 7 \/ month = 8
                     \/ month = 9 \/ month = 10 \/ month = 11 \/ month = 12)
      by lia.
    destruct (is_leap year);
      repeat (destruct Hcases as [->|Hcases]); try subst month;
      simpl; lia. }
  unfold MAXORDINAL.
  destruct (Z.eq_dec year 9999) as [H9|H9].
  - rewrite (Hleap H9) in Hdbm. destruct Hdby as (? & _ & Heq).
    rewrite (Heq H9). lia.
  - destruct Hdby as (? & Hle & _). specialize (Hle ltac:(lia)).
    destruct (is_leap year); lia.
Qed.

Lemma strptime_Ymd_in_range (s : string) (dt : datetime) :
  strptime_Ymd s = Ok dt -> date_in_range (dt_date dt).
Proof.
  unfold strptime_Ymd.
  destruct (re_Ymd (list_ascii_of_string s)) as [|[[[y m] d] [|c rest]] l];
    try discriminate.
  destruct (date_of_ymd y m d) as [d0|e] eqn:Hd; simpl; [|discriminate].
  intros [= <-]. simpl. eapply date_of_ymd_in_range, Hd.
Qed.

(** Every failure of the parser is a [ValueError]. *)
Lemma strptime_Ymd_raises (s : string) (e : exn) :
  strptime_Ymd s = Raise e -> e = ValueError.
Proof.
  unfold strptime_Ymd.
  destruct (re_Ymd (list_ascii_of_string s)) as [|[[[y m] d] [|c rest]] l];
    try (now intros [= <-]).
  unfold date_of_ymd.
  destruct (_ && _); simpl; [discriminate|now intros [= <-]].
Qed.

Example strptime_examples :
  strptime_Ymd "2024-02-02"
    = Ok (combine (mkdate (ymd2ord 2024 2 2)) (mktime 0 0 0 0))
  /\ strptime_Ymd "2024-2-3"
    = Ok (combine (mkdate (ymd2ord 2024 2 3)) (mktime 0 0 0 0))
  /\ strptime_Ymd "not-a-date" = Raise ValueError
  /\ strptime_Ymd "2024-02-30" = Raise ValueError
  /\ strptime_Ymd "2024-02-021" = Raise ValueError
  /\ strptime_Ymd "24-02-02" = Raise ValueError
  /\ strptime_Ymd "0000-01-01" = Raise ValueError
  /\ strptime (PyInt 20240202) = Raise TypeError.
Proof. repeat split; reflexivity. Qed.

Lemma shift_to_market_open_closed_form (d : date) :
  date_in_range d -> shift_to_market_open d = Ok (market_open d).
Proof.
  intros Hr. unfold shift_to_market_open, market_open, datetime_weekday.
  simpl. destruct (Z.leb_spec 5 (weekday d)) as [Hw|Hw].
  - pose proof (weekend_before_max d Hr Hw).
    pose proof (weekday_range d). unfold date_in_range in Hr.
    rewrite datetime_add_in_range by (simpl; lia). reflexivity.
  - unfold combine. destruct d as [o]. simpl. do 3 f_equal. lia.
Qed.

(** ** One fact *)

Lemma filed_date_Some (namespace_data : fact) (d : date) :
  filed_date namespace_data = Some d <->
  exists s dt, namespace_data !! "filed" = Some (PyStr s)
               /\ strptime_Ymd s = Ok dt /\ dt_date dt = d.
Proof.
  unfold filed_date. split.
  - destruct (namespace_data !! "filed") as [[| | | |s| |]|]; try discriminate.
    destruct (strptime_Ymd s) as [dt|] eqn:Hs; [|discriminate].
    intros [= <-]. eauto.
  - intros (s & dt & -> & -> & <-). reflexivity.
Qed.

Lemma filed_date_in_range (namespace_data : fact) (d : date) :
  filed_date namespace_data = Some d -> date_in_range d.
Proof.
  intros (s & dt & _ & Hs & <-)%filed_date_Some.
  eapply strptime_Ymd_in_range, Hs.
Qed.

(** A fact with a parseable [filed] field adds its row. *)
Lemma extract_fact_row metric namespace (namespace_data : fact) d metrics_data :
  filed_date namespace_data = Some d ->
  extract_fact metric namespace namespace_data metrics_data
  = Ok (metrics_data
          ++ [ExtractedRow metric namespace namespace_data (market_open d)]).
Proof.
  intros Hd. pose proof (filed_date_in_range _ _ Hd) as Hr.
  apply filed_date_Some in Hd as (s & dt & Hf & Hs & <-).
  unfold extract_fact. rewrite Hf. simpl. rewrite Hs. simpl.
  unfold mbind, result_bind; simpl.
  rewrite shift_to_market_open_closed_form by exact Hr. simpl.
  now rewrite ExtractedRow_inserts.
Qed.

(** A fact without a [filed] field, or whose [filed] text does not parse,
    leaves the list as it is. *)
Lemma extract_fact_skip metric namespace (namespace_data : fact) metrics_data :
  namespace_data !! "filed" = None
  \/ (exists s, namespace_data !! "filed" = Some (PyStr s)
                /\ forall dt, strptime_Ymd s <> Ok dt) ->
  extract_fact metric namespace namespace_data metrics_data = Ok metrics_data.
Proof.
  unfold extract_fact. intros [->|(s & -> & Hs)]; [reflexivity|].
  simpl. destruct (strptime_Ymd s) as [dt|e] eqn:He; [now destruct (Hs dt)|].
  apply strptime_Ymd_raises in He as ->. reflexivity.
Qed.

(** A [filed] field that is not text is a [TypeError], which the
    [except ValueError] clause lets through. *)
Lemma extract_fact_type_error metric namespace (namespace_data : fact) v
    metrics_data :
  namespace_data !! "filed" = Some v -> (forall s, v <> PyStr s) ->
  extract_fact metric namespace namespace_data metrics_data = Raise TypeError.
Proof.
  unfold extract_fact. intros -> Hv.
  destruct v; try reflexivity. now destruct (Hv s).
Qed.

(** The three cases cover every fact. *)
Lemma fact_cases (namespace_data : fact) :
  (exists d, filed_date namespace_data = Some d)
  \/ (filed_date namespace_data = None
      /\ (namespace_data !! "filed" = None
          \/ exists s, namespace_data !! "filed" = Some (PyStr s)
                       /\ forall dt, strptime_Ymd s <> Ok dt))
  \/ (filed_date namespace_data = None
      /\ exists v, namespace_data !! "filed" = Some v
                   /\ forall s, v <> PyStr s).
Proof.
  unfold filed_date.
  destruct (namespace_data !! "filed") as [v|] eqn:Hf;
    [|right; left; eauto].
  destruct v; try (right; right; split; [reflexivity|];
                   eexists; split; [reflexivity|]; intros ?; discriminate).
  destruct (strptime_Ymd s) as [dt|e] eqn:Hs; [left; eauto|].
  right; left. split; [reflexivity|]. right. exists s.
  split; [reflexivity|]. intros dt. congruence.
Qed.

Lemma extract_fact_appends metric namespace :
  appends (extract_fact metric namespace).
Proof.
  intros namespace_data acc.
  destruct (fact_cases namespace_data)
    as [[d Hd]|[[_ Hskip]|[_ (v & Hv & Hty)]]].
  - now rewrite !(extract_fact_row _ _ _ d) by exact Hd.
  - rewrite !extract_fact_skip by exact Hskip. simpl. now rewrite app_nil_r.
  - now rewrite !(extract_fact_type_error _ _ _ v) by assumption.
Qed.

(** ** The whole extraction as one loop over the triples *)

Lemma rbind_Ok_r {A} (r : result A) : rbind r Ok = r.
Proof. now destruct r. Qed.

Lemma elem_of_triples (xbrl_data : XBRLData) metrics_list metric namespace
    (namespace_data : fact) :
  (metric, namespace, namespace_data) ∈ triples xbrl_data metrics_list <->
  metric ∈ metrics_list
  /\ namespace ∈ dict_keys xbrl_data
  /\ exists namespace_map facts,
       dict_get namespace xbrl_data = Some namespace_map
       /\ namespace_map !! metric = Some facts
       /\ namespace_data ∈ facts.
Proof.
  unfold triples. rewrite list_elem_of_bind. split.
  - intros (metric' & H & Hm).
    apply list_elem_of_bind in H as (namespace' & H & Hk).
    apply list_elem_of_bind in H as (namespace_map & H & Hg).
    apply list_elem_of_bind in H as (facts & H & Hl).
    apply list_elem_of_bind in H as (nd & H & Hf).
    apply list_elem_of_singleton in H as [= -> -> ->].
    destruct (dict_get namespace' xbrl_data) as [m|] eqn:Hget;
      [|inversion Hg].
    apply list_elem_of_singleton in Hg as ->.
    destruct (m !! metric') as [fs|] eqn:Hlk; [|inversion Hl].
    apply list_elem_of_singleton in Hl as ->.
    eauto 10.
  - intros (Hm & Hk & m & fs & Hget & Hlk & Hf).
    exists metric. split; [|exact Hm].
    apply list_elem_of_bind. exists namespace. split; [|exact Hk].
    rewrite Hget. change (option_list (Some m)) with [m].
    rewrite bind_singleton, Hlk. change (option_list (Some fs)) with [fs].
    rewrite bind_singleton. apply list_elem_of_bind.
    exists namespace_data. split; [now apply list_elem_of_singleton|exact Hf].
Qed.

(** With [print_metrics] off, the three nested loops visit exactly the
    triples, in their order. *)
Lemma extract_metrics_flat (xbrl_data : XBRLData) (metrics_list : list string) :
  extract_metrics xbrl_data metrics_list
  = for_each (triples xbrl_data metrics_list)
             (fun t => extract_fact t.1.1 t.1.2 t.2) [].
Proof.
  unfold extract_metrics, extract_metrics_with, triples.
  rewrite for_each_bind. apply for_each_ext. intros metric acc _.
  unfold extract_metric. rewrite for_each_bind.
  apply for_each_ext. intros namespace acc' Hk.
  unfold extract_namespace.
  destruct (dict_get_keys _ _ Hk) as [m ->].
  change (option_list (Some m)) with [m]. rewrite bind_singleton.
  destruct (m !! metric) as [facts|]; [|reflexivity].
  change (option_list (Some facts)) with [facts].
  rewrite bind_singleton, for_each_bind.
  apply for_each_ext. intros nd acc'' _. simpl. symmetry.
  apply rbind_Ok_r.
Qed.

(** What a successful run of the loop over triples has produced. *)
Lemma for_each_triples_rows (ts : list (string * string * fact)) acc rows :
  for_each ts (fun t => extract_fact t.1.1 t.1.2 t.2) acc = Ok rows ->
  exists new,
    rows = acc ++ new
    /\ Forall2 row_of_triple (filter (fun t => is_Some (filed_date t.2)) ts) new.
Proof.
  revert acc. induction ts as [|t ts IH]; intros acc; simpl.
  - intros [= <-]. exists []. rewrite app_nil_r. split; [reflexivity|].
    constructor.
  - destruct (fact_cases t.2) as [[d Hd]|[[Hnone Hskip]|[_ (v & Hv & Hty)]]].
    + rewrite (extract_fact_row _ _ _ d) by exact Hd. simpl.
      intros (new & -> & Hnew)%IH.
      exists (ExtractedRow t.1.1 t.1.2 t.2 (market_open d) :: new).
      split; [now rewrite <- app_assoc|].
      rewrite filter_cons_True by (rewrite Hd; eauto).
      constructor; [|exact Hnew].
      exists d, (market_open d). split; [exact Hd|]. split; [|reflexivity].
      apply shift_to_market_open_closed_form.
      eapply filed_date_in_range, Hd.
    + rewrite extract_fact_skip by exact Hskip. simpl.
      intros (new & -> & Hnew)%IH. exists new. split; [reflexivity|].
      rewrite filter_cons_False; [exact Hnew|].
      rewrite Hnone. now intros [? [=]].
    + rewrite (extract_fact_type_error _ _ _ v) by assumption. discriminate.
Qed.

(** When the [filed] fields hold text the loop does not raise. *)
Lemma for_each_triples_total (ts : list (string * string * fact)) acc :
  (forall t v, t ∈ ts -> t.2 !! "filed" = Some v -> exists s, v = PyStr s) ->
  exists rows,
    for_each ts (fun t => extract_fact t.1.1 t.1.2 t.2) acc = Ok rows.
Proof.
  revert acc. induction ts as [|t ts IH]; intros acc Hty; simpl; [eauto|].
  assert (Hts : forall t' v, t' ∈ ts -> t'.2 !! "filed" = Some v ->
                             exists s, v = PyStr s).
  { intros t' v Ht'. apply Hty. now right. }
  destruct (fact_cases t.2) as [[d Hd]|[[_ Hskip]|[_ (v & Hv & Hnt)]]].
  - rewrite (extract_fact_row _ _ _ d) by exact Hd. simpl. now apply IH.
  - rewrite extract_fact_skip by exact Hskip. simpl. now apply IH.
  - destruct (Hty t v) as [s ->]; [left|exact Hv|]. now destruct (Hnt s).
Qed.

(** C1, amended: on an [xbrl_data] whose [filed] fields, under the
    requested metrics, hold text, [extract_metrics] returns one row for each triple (metric of
    [metrics_list], namespace of [xbrl_data], fact under that metric in that
    namespace) whose fact has a parseable [filed] field, in the triples'
    order; the row is the fact's fields together with [market_day] (the
    result of [shift_to_market_open] on the parsed date), [namespace] and
    [content]. *)
Theorem extract_metrics_one_row_per_triple (xbrl_data : XBRLData)
    (metrics_list : list string) :
  filed_is_text xbrl_data metrics_list ->
  exists rows,
    extract_metrics xbrl_data metrics_list = Ok rows
    /\ Forall2 row_of_triple
         (filter (fun t => is_Some (filed_date t.2))
                 (triples xbrl_data metrics_list))
         rows.
Proof.
  intros Hty. rewrite extract_metrics_flat.
  destruct (for_each_triples_total (triples xbrl_data metrics_list) [] Hty)
    as [rows Hrows].
  exists rows. split; [exact Hrows|].
  apply for_each_triples_rows in Hrows as (new & -> & Hnew). exact Hnew.
Qed.

(** The specification's first example: one fact filed on Friday
    2024-02-02. *)
Lemma extract_metrics_one_row_per_triple_witness :
  exists rows,
    extract_metrics (sample_xbrl NetIncomeLoss [sample_fact "2024-02-02"])
                    [NetIncomeLoss] = Ok rows
    /\ Forall2 row_of_triple
         [(NetIncomeLoss, "us-gaap"%string, sample_fact "2024-02-02")] rows.
Proof.
  apply (extract_metrics_one_row_per_triple
           (sample_xbrl NetIncomeLoss [sample_fact "2024-02-02"])
           [NetIncomeLoss]).
  intros t v Ht Hv.
  change (triples _ _)
    with [(NetIncomeLoss, "us-gaap"%string, sample_fact "2024-02-02")] in Ht.
  apply list_elem_of_singleton in Ht. subst t.
  vm_compute in Hv. injection Hv as <-. eexists. reflexivity.
Defined.

Example extract_metrics_friday :
  extract_metrics (sample_xbrl NetIncomeLoss [sample_fact "2024-02-02"])
                  [NetIncomeLoss]
  = Ok [ExtractedRow NetIncomeLoss "us-gaap" (sample_fact "2024-02-02")
          (combine (mkdate (ymd2ord 2024 2 2)) (mktime 9 30 0 0))].
Proof. vm_compute. reflexivity. Qed.

Example extract_metrics_saturday :
  extract_metrics (sample_xbrl NetIncomeLoss [sample_fact "2024-02-03"])
                  [NetIncomeLoss]
  = Ok [ExtractedRow NetIncomeLoss "us-gaap" (sample_fact "2024-02-03")
          (combine (mkdate (ymd2ord 2024 2 5)) (mktime 9 30 0 0))].
Proof. vm_compute. reflexivity. Qed.

Example extract_metrics_not_a_date :
  extract_metrics (sample_xbrl NetIncomeLoss [sample_fact "not-a-date"])
                  [NetIncomeLoss]
  = Ok [].
Proof. vm_compute. reflexivity. Qed.

(** C1, as stated, fails when a fact under a requested metric holds a
    [filed] field that is not text: [strptime] raises [TypeError], which
    [except ValueError] does not catch, so the call raises and the fact
    filed on 2024-02-02 before it gets no row. *)
Lemma extract_metrics_filed_number_raises :
  filter (fun t => is_Some (filed_date t.2))
         (triples filed_number_xbrl [NetIncomeLoss])
  = [(NetIncomeLoss, "us-gaap"%string, sample_fact "2024-02-02")]
  /\ extract_metrics filed_number_xbrl [NetIncomeLoss] = Raise TypeError
  /\ ~ (exists rows,
          extract_metrics filed_number_xbrl [NetIncomeLoss] = Ok rows
          /\ Forall2 row_of_triple
               (filter (fun t => is_Some (filed_date t.2))
                       (triples filed_number_xbrl [NetIncomeLoss]))
               rows).
Proof.
  assert (Hrun : extract_metrics filed_number_xbrl [NetIncomeLoss]
                 = Raise TypeError) by (vm_compute; reflexivity).
  split; [vm_compute; reflexivity|]. split; [exact Hrun|].
  intros (rows & Hrows & _). rewrite Hrun in Hrows. discriminate.
Qed.

(** ** Skipped facts *)

Lemma dict_get_app_cons {V} (k k0 : string) (v : V) (pre post : list (string * V)) :
  dict_get k (pre ++ (k0, v) :: post)
  = match dict_get k pre with
    | Some x => Some x
    | None => if String.eqb k k0 then Some v else dict_get k post
    end.
Proof.
  induction pre as [|[k' v'] pre IH]; simpl; [reflexivity|].
  now destruct (String.eqb k k').
Qed.

Lemma dict_keys_app_cons {V} (k0 : string) (v v' : V) (pre post : list (string * V)) :
  dict_keys (pre ++ (k0, v) :: post) = dict_keys (pre ++ (k0, v') :: post).
Proof. unfold dict_keys. now rewrite !fmap_app. Qed.

Lemma for_each_skip {A S} (pre post : list A) (x : A)
    (body : A -> S -> result S) (s : S) :
  (forall s', body x s' = Ok s') ->
  for_each (pre ++ x :: post) body s = for_each (pre ++ post) body s.
Proof.
  intros Hx. rewrite !for_each_app. simpl.
  destruct (for_each pre body s); simpl; [now rewrite Hx|reflexivity].
Qed.

(** C2: a fact that lacks [filed], or whose [filed] text does not parse,
    adds no row and raises nothing, wherever it is met; the loop over its
    fact list goes on as if the fact were not there, and so does the whole
    extraction. *)
Theorem extract_metrics_skips_fact (ns_pre ns_post : XBRLData)
    (namespace metric : string) (namespace_map : gmap string (list fact))
    (pre post : list fact) (namespace_data : fact) :
  namespace_map !! metric = Some (pre ++ namespace_data :: post) ->
  unparsable_filed namespace_data ->
  (forall metrics_data,
      extract_fact metric namespace namespace_data metrics_data
      = Ok metrics_data)
  /\ (forall metrics_data,
         for_each (pre ++ namespace_data :: post)
                  (extract_fact metric namespace) metrics_data
         = for_each (pre ++ post) (extract_fact metric namespace) metrics_data)
  /\ (forall metrics_list,
         extract_metrics (ns_pre ++ (namespace, namespace_map) :: ns_post)
                         metrics_list
         = extract_metrics
             (ns_pre
                ++ (namespace, <[metric := pre ++ post]> namespace_map)
                :: ns_post)
             metrics_list).
Proof.
  intros Hlk Hskip.
  assert (Hfact : forall metric' namespace' metrics_data,
             extract_fact metric' namespace' namespace_data metrics_data
             = Ok metrics_data).
  { intros. now apply extract_fact_skip. }
  split; [apply Hfact|].
  split; [intros; apply for_each_skip; apply Hfact|].
  intros metrics_list. unfold extract_metrics, extract_metrics_with.
  apply for_each_ext. intros metric' acc _. unfold extract_metric.
  rewrite (dict_keys_app_cons namespace namespace_map
             (<[metric := pre ++ post]> namespace_map)).
  apply for_each_ext. intros k acc' _. unfold extract_namespace.
  rewrite !dict_get_app_cons.
  destruct (dict_get k ns_pre); [reflexivity|].
  destruct (String.eqb_spec k namespace) as [->|Hk]; [|reflexivity].
  destruct (decide (metric' = metric)) as [->|Hne].
  - rewrite Hlk, lookup_insert_eq. apply for_each_skip, Hfact.
  - now rewrite lookup_insert_ne by congruence.
Qed.

(** A fact without [filed] between two good ones. *)
Lemma extract_metrics_skips_fact_witness :
  extract_metrics
    (sample_xbrl NetIncomeLoss
       [sample_fact "2024-02-02"; {[ "val" := PyInt 7 ]};
        sample_fact "2024-02-03"])
    [NetIncomeLoss]
  = extract_metrics
      ([] ++ ("us-gaap"%string,
              <[NetIncomeLoss := [sample_fact "2024-02-02"]
                                   ++ [sample_fact "2024-02-03"]]>
                {[ NetIncomeLoss :=
                     [sample_fact "2024-02-02"; {[ "val" := PyInt 7 ]};
                      sample_fact "2024-02-03"] ]}) :: [])
      [NetIncomeLoss].
Proof.
  refine (proj2 (proj2
    (extract_metrics_skips_fact [] [] "us-gaap" NetIncomeLoss
       {[ NetIncomeLoss := [sample_fact "2024-02-02"; {[ "val" := PyInt 7 ]};
                            sample_fact "2024-02-03"] ]}
       [sample_fact "2024-02-02"] [sample_fact "2024-02-03"]
       {[ "val" := PyInt 7 ]} _ _)) [NetIncomeLoss]).
  - vm_compute. reflexivity.
  - left. vm_compute. reflexivity.
Defined.

(** ** Metrics absent from a namespace *)

Lemma Forall2_elem_of_r {A B} (P : A -> B -> Prop) (l : list A) (k : list B) y :
  Forall2 P l k -> y ∈ k -> exists x, x ∈ l /\ P x y.
Proof.
  induction 1 as [|x y' l k Hxy _ IH]; intros Hy; [inversion Hy|].
  inversion Hy; subst.
  - exists x. split; [left|exact Hxy].
  - destruct (IH ltac:(assumption)) as (x' & Hx' & HP).
    exists x'. split; [now right|exact HP].
Qed.

(** Every returned row comes from a triple. *)
Lemma extract_metrics_row_origin (xbrl_data : XBRLData) metrics_list rows r :
  extract_metrics xbrl_data metrics_list = Ok rows -> r ∈ rows ->
  exists t, t ∈ triples xbrl_data metrics_list /\ row_of_triple t r.
Proof.
  rewrite extract_metrics_flat.
  intros (new & -> & Hnew)%for_each_triples_rows Hr.
  destruct (Forall2_elem_of_r _ _ _ _ Hnew Hr) as (t & Ht & Htr).
  apply list_elem_of_filter in Ht as [_ Ht]. eauto.
Qed.

(** C6: when [metric] is not a key of [xbrl_data[namespace]], the loop
    body for that pair leaves the list as it is, and no returned row
    carries that metric as [content] with that namespace, whatever
    [metrics_list] is. *)
Theorem extract_metrics_absent_metric (xbrl_data : XBRLData)
    (metrics_list : list string) (metric namespace : string)
    (namespace_map : gmap string (list fact)) :
  dict_get namespace xbrl_data = Some namespace_map ->
  namespace_map !! metric = None ->
  (forall metrics_data,
      extract_namespace print_metrics xbrl_data metric namespace metrics_data
      = Ok metrics_data)
  /\ (forall rows r,
         extract_metrics xbrl_data metrics_list = Ok rows -> r ∈ rows ->
         ~ (r !! "content" = Some (PyStr metric)
            /\ r !! "namespace" = Some (PyStr namespace))).
Proof.
  intros Hget Hlk. split.
  - intros metrics_data. unfold extract_namespace. now rewrite Hget, Hlk.
  - intros rows r Hrun Hr [Hc Hn].
    destruct (extract_metrics_row_origin _ _ _ _ Hrun Hr)
      as ([[metric' namespace'] nd] & Ht & (d & md & _ & _ & ->)).
    simpl in Hc, Hn. rewrite ExtractedRow_lookup in Hc, Hn.
    simpl in Hc, Hn. injection Hc as ->. injection Hn as ->.
    apply elem_of_triples in Ht as (_ & _ & m & fs & Hget' & Hlk' & _).
    congruence.
Qed.

(** [NetIncomeLoss] is asked for, the namespace only has another metric. *)
Lemma extract_metrics_absent_metric_witness :
  extract_namespace print_metrics
    (sample_xbrl ResearchAndDevelopmentExpense [sample_fact "2024-02-02"])
    NetIncomeLoss "us-gaap" []
  = Ok [].
Proof.
  refine (proj1
    (extract_metrics_absent_metric
       (sample_xbrl ResearchAndDevelopmentExpense [sample_fact "2024-02-02"])
       [NetIncomeLoss] NetIncomeLoss "us-gaap"
       {[ ResearchAndDevelopmentExpense := [sample_fact "2024-02-02"] ]}
       _ _) []).
  - reflexivity.
  - vm_compute. reflexivity.
Defined.

(** With [print_metrics] switched on the same pair does add a row, one
    that holds [content] only. *)
Lemma extract_namespace_verbose (xbrl_data : XBRLData) metric namespace
    (namespace_map : gmap string (list fact)) metrics_data :
  dict_get namespace xbrl_data = Some namespace_map ->
  namespace_map !! metric = None ->
  extract_namespace true xbrl_data metric namespace metrics_data
  = Ok (metrics_data ++ [ {[ "content" := PyStr metric ]} ]).
Proof. intros Hget Hlk. unfold extract_namespace. now rewrite Hget, Hlk. Qed.

(** ** Order of the output *)

Lemma extract_namespace_appends print_metrics (xbrl_data : XBRLData) metric :
  appends (extract_namespace print_metrics xbrl_data metric).
Proof.
  intros namespace acc. unfold extract_namespace.
  destruct (dict_get namespace xbrl_data) as [m|]; [|reflexivity].
  destruct (m !! metric) as [facts|].
  - apply for_each_appends, extract_fact_appends.
  - destruct print_metrics; simpl; [reflexivity|now rewrite app_nil_r].
Qed.

Lemma extract_metric_appends print_metrics (xbrl_data : XBRLData) :
  appends (extract_metric print_metrics xbrl_data).
Proof.
  intros metric acc. unfold extract_metric.
  apply for_each_appends, extract_namespace_appends.
Qed.

Lemma extract_metrics_app (xbrl_data : XBRLData) metrics1 metrics2 :
  extract_metrics xbrl_data (metrics1 ++ metrics2)
  = then_append (extract_metrics xbrl_data metrics1)
                (extract_metrics xbrl_data metrics2).
Proof. apply for_each_then_append, extract_metric_appends. Qed.

(** C7: the output is produced by one pass over the triples, metric
    outermost, namespace key next, fact innermost: the rows of an earlier
    metric come before those of a later one; within a metric the rows of an
    earlier namespace key come first; within a namespace the rows follow
    the fact list; and the rows are not put in date order. *)
Theorem extract_metrics_order (xbrl_data : XBRLData) :
  (forall metrics_list,
      extract_metrics xbrl_data metrics_list
      = for_each (triples xbrl_data metrics_list)
                 (fun t => extract_fact t.1.1 t.1.2 t.2) [])
  /\ (forall metrics1 metrics2,
      extract_metrics xbrl_data (metrics1 ++ metrics2)
      = then_append (extract_metrics xbrl_data metrics1)
                    (extract_metrics xbrl_data metrics2))
  /\ (forall metric,
         extract_metrics xbrl_data [metric]
         = for_each (dict_keys xbrl_data)
                    (extract_namespace print_metrics xbrl_data metric) [])
  /\ (forall metric keys1 keys2,
         for_each (keys1 ++ keys2)
                  (extract_namespace print_metrics xbrl_data metric) []
         = then_append
             (for_each keys1
                       (extract_namespace print_metrics xbrl_data metric) [])
             (for_each keys2
                       (extract_namespace print_metrics xbrl_data metric) []))
  /\ (forall metric namespace facts1 facts2,
         for_each (facts1 ++ facts2) (extract_fact metric namespace) []
         = then_append
             (for_each facts1 (extract_fact metric namespace) [])
             (for_each facts2 (extract_fact metric namespace) []))
  /\ (exists rows,
         extract_metrics later_then_earlier [NetIncomeLoss] = Ok rows
         /\ market_days rows
            = [Some (PyDatetime
                       (combine (mkdate (ymd2ord 2024 2 5)) (mktime 9 30 0 0)));
               Some (PyDatetime
                       (combine (mkdate (ymd2ord 2024 2 2)) (mktime 9 30 0 0)))]).
Proof.
  split; [|split; [|split; [|split; [|split]]]].
  - intros. apply extract_metrics_flat.
  - intros. apply extract_metrics_app.
  - intros metric. unfold extract_metrics, extract_metrics_with. simpl.
    apply rbind_Ok_r.
  - intros. apply for_each_then_append, extract_namespace_appends.
  - intros. apply for_each_then_append, extract_fact_appends.
  - eexists. split; vm_compute; reflexivity.
Qed.

(** ** Repeated metrics *)

(** Each occurrence of a metric in [metrics_list] contributes the rows of
    that metric: the output is the concatenation, along the list, of the
    per-metric outputs. *)
Lemma extract_metrics_concat (xbrl_data : XBRLData) (metrics_list : list string)
    (rows_of : string -> list row) :
  (forall metric, metric ∈ metrics_list ->
                  extract_metrics xbrl_data [metric] = Ok (rows_of metric)) ->
  extract_metrics xbrl_data metrics_list
  = Ok (concat (map rows_of metrics_list)).
Proof.
  induction metrics_list as [|metric metrics_list IH]; intros Hone;
    [reflexivity|].
  change (metric :: metrics_list) with ([metric] ++ metrics_list).
  rewrite extract_metrics_app, (Hone metric) by left.
  rewrite IH by (intros m Hm; apply Hone; now right).
  reflexivity.
Qed.

(** A metric listed [k] times contributes its rows [k] times. *)
Lemma extract_metrics_no_dedup (xbrl_data : XBRLData) metric rows (k : nat) :
  extract_metrics xbrl_data [metric] = Ok rows ->
  extract_metrics xbrl_data (replicate k metric)
  = Ok (concat (replicate k rows)).
Proof.
  intros Hone.
  rewrite (extract_metrics_concat _ _ (fun _ => rows)).
  - f_equal. f_equal. induction k; simpl; congruence.
  - intros m Hm. apply elem_of_replicate in Hm as [-> _]. exact Hone.
Qed.

(** C9: [top_25_metrics] holds [ResearchAndDevelopmentExpense] once, not
    twice: its first literal has no comma after it and is joined to the
    [NetIncomeLoss] literal that follows, which leaves 26 entries, none of
    them [NetIncomeLoss]. A fact under [ResearchAndDevelopmentExpense] is
    returned once by [extract_metrics_from_EDGAR_XBRL], although a list
    that names the metric twice returns it twice. *)
Theorem top_25_metrics_fused_literal :
  count_occ string_dec top_25_metrics ResearchAndDevelopmentExpense = 1%nat
  /\ count_occ string_dec top_25_metrics
       (ResearchAndDevelopmentExpense +:+ NetIncomeLoss) = 1%nat
  /\ count_occ string_dec top_25_metrics NetIncomeLoss = 0%nat
  /\ length top_25_metrics = 26%nat
  /\ extract_metrics_from_EDGAR_XBRL
       (sample_xbrl ResearchAndDevelopmentExpense [sample_fact "2024-02-02"])
     = Ok [ExtractedRow ResearchAndDevelopmentExpense "us-gaap"
             (sample_fact "2024-02-02")
             (combine (mkdate (ymd2ord 2024 2 2)) (mktime 9 30 0 0))]
  /\ extract_metrics
       (sample_xbrl ResearchAndDevelopmentExpense [sample_fact "2024-02-02"])
       [ResearchAndDevelopmentExpense; ResearchAndDevelopmentExpense]
     = Ok [ExtractedRow ResearchAndDevelopmentExpense "us-gaap"
             (sample_fact "2024-02-02")
             (combine (mkdate (ymd2ord 2024 2 2)) (mktime 9 30 0 0));
           ExtractedRow ResearchAndDevelopmentExpense "us-gaap"
             (sample_fact "2024-02-02")
             (combine (mkdate (ymd2ord 2024 2 2)) (mktime 9 30 0 0))]
  /\ extract_metrics_from_EDGAR_XBRL
       (sample_xbrl NetIncomeLoss [sample_fact "2024-02-02"])
     = Ok [].
Proof. repeat split; vm_compute; reflexivity. Qed.

(** ** The store model *)

Lemma dicts_at_weaken (h h' : Heap.heap) (ls : list positive) :
  h ⊆ h' -> Forall (fun l => is_Some (h !! l)) ls ->
  Heap.dicts_at h' ls = Heap.dicts_at h ls.
Proof.
  intros Hsub Hall. unfold Heap.dicts_at.
  induction Hall as [|l ls [d Hd] _ IH]; simpl; [reflexivity|].
  rewrite IH. f_equal.
  rewrite (lookup_total_correct h l d Hd).
  apply lookup_total_correct. eapply lookup_weaken; eassumption.
Qed.

Lemma allocated_weaken (h h' : Heap.heap) (ls : list positive) :
  h ⊆ h' -> Forall (fun l => is_Some (h !! l)) ls ->
  Forall (fun l => is_Some (h' !! l)) ls.
Proof.
  intros Hsub Hall. eapply Forall_impl; [exact Hall|].
  intros l [d Hd]. exists d. eapply lookup_weaken; eassumption.
Qed.

Lemma refines_for_each {A A'} (h : Heap.heap) (f : A -> A') (xs : list A)
    (hbody : A -> list positive -> Heap.M (list positive))
    (pbody : A' -> list (gmap string pyval) -> result (list (gmap string pyval))) :
  (forall x, x ∈ xs -> Heap.refines h (hbody x) (pbody (f x))) ->
  Heap.refines h (Heap.for_each xs hbody) (for_each (map f xs) pbody).
Proof.
  induction xs as [|x xs IH]; intros Hbody acc h0 Hsub Hacc; simpl.
  - exists (Ok acc), h0. split; [reflexivity|]. split; [reflexivity|].
    split; [exact Hacc|reflexivity].
  - destruct (Hbody x ltac:(left) acc h0 Hsub Hacc)
      as (r & h1 & Hrun & Hsub1 & Hres).
    unfold Heap.bind. rewrite Hrun. destruct r as [ls|e].
    + destruct Hres as [Hls Hpure]. rewrite Hpure. simpl.
      assert (Hxs : forall y, y ∈ xs -> Heap.refines h (hbody y) (pbody (f y))).
      { intros y Hy. apply Hbody. now right. }
      destruct (IH Hxs ls h1 ltac:(etransitivity; eassumption) Hls)
        as (r' & h' & Hrun' & Hsub' & Hres').
      exists r', h'. split; [exact Hrun'|].
      split; [etransitivity; eassumption|exact Hres'].
    + exists (Raise e), h1. split; [reflexivity|]. split; [exact Hsub1|].
      rewrite Hres. reflexivity.
Qed.

(** The four heap steps that build a row leave one new object holding the
    finished row. *)
Lemma build_row (h0 : Heap.heap) (l : positive) (nd : gmap string pyval)
    metric namespace market_day (acc : list positive) :
  h0 !! l = Some nd ->
  Heap.bind (Heap.dict_copy l) (fun row =>
  Heap.bind (Heap.dict_setitem row "market_day" (PyDatetime market_day)) (fun _ =>
  Heap.bind (Heap.dict_setitem row "namespace" (PyStr namespace)) (fun _ =>
  Heap.bind (Heap.dict_setitem row "content" (PyStr metric)) (fun _ =>
  Heap.ret (acc ++ [row]))))) h0
  = (Ok (acc ++ [fresh (dom h0)]),
     <[fresh (dom h0) := ExtractedRow metric namespace nd market_day]> h0).
Proof.
  intros Hl. unfold Heap.bind, Heap.dict_copy, Heap.dict_setitem, Heap.ret. rewrite Hl.
  rewrite lookup_insert_eq. rewrite lookup_insert_eq. rewrite lookup_insert_eq.
  rewrite !insert_insert_eq. now rewrite ExtractedRow_inserts.
Qed.

Lemma refines_extract_fact (h : Heap.heap) metric namespace (l : positive) :
  is_Some (h !! l) ->
  Heap.refines h (Heap.extract_fact metric namespace l)
            (extract_fact metric namespace (h !!! l)).
Proof.
  intros [nd Hnd] acc h0 Hsub Hacc.
  rewrite (lookup_total_correct h l nd Hnd).
  assert (Hnd0 : h0 !! l = Some nd) by (eapply lookup_weaken; eassumption).
  unfold Heap.extract_fact, Heap.bind at 1, Heap.dict_lookup. rewrite Hnd0.
  destruct (fact_cases nd) as [[d Hd]|[[_ Hskip]|[_ (v & Hv & Hty)]]].
  - rewrite (extract_fact_row _ _ _ d) by exact Hd.
    pose proof (filed_date_in_range _ _ Hd) as Hr.
    apply filed_date_Some in Hd as (s & dt & Hf & Hs & <-).
    rewrite Hf. unfold Heap.try_except_ValueError, Heap.bind at 1, Heap.lift.
    simpl. rewrite Hs. unfold Heap.bind at 1.
    rewrite shift_to_market_open_closed_form by exact Hr.
    rewrite (build_row h0 l nd) by exact Hnd0.
    set (l' := fresh (dom h0)).
    assert (Hfresh : h0 !! l' = None)
      by (apply not_elem_of_dom, is_fresh).
    eexists _, _. split; [reflexivity|].
    assert (Hsub' : h0 ⊆ <[l' := ExtractedRow metric namespace nd
                                   (market_open (dt_date dt))]> h0)
      by (apply insert_subseteq, Hfresh).
    split; [exact Hsub'|]. split.
    + apply Forall_app. split; [eapply allocated_weaken; eassumption|].
      constructor; [|constructor]. rewrite lookup_insert_eq. eauto.
    + f_equal. unfold Heap.dicts_at. rewrite map_app. simpl.
      rewrite lookup_total_insert_eq. f_equal.
      symmetry. apply (dicts_at_weaken h0); assumption.
  - rewrite extract_fact_skip by exact Hskip.
    exists (Ok acc), h0.
    split; [|split; [reflexivity|split; [exact Hacc|reflexivity]]].
    destruct Hskip as [->|(s & -> & Hs)]; [reflexivity|].
    unfold Heap.try_except_ValueError, Heap.bind, Heap.lift. simpl.
    destruct (strptime_Ymd s) as [dt|e] eqn:He; [now destruct (Hs dt)|].
    apply strptime_Ymd_raises in He as ->. reflexivity.
  - rewrite (extract_fact_type_error _ _ _ v) by assumption.
    exists (Raise TypeError), h0.
    split; [|split; reflexivity]. rewrite Hv.
    unfold Heap.try_except_ValueError, Heap.bind, Heap.lift.
    destruct v; try reflexivity. now destruct (Hty s).
Qed.

Lemma dict_get_elem_of {V} (k : string) (v : V) (d : list (string * V)) :
  dict_get k d = Some v -> (k, v) ∈ d.
Proof.
  induction d as [|[k' v'] d IH]; simpl; [discriminate|].
  destruct (String.eqb_spec k k') as [->|Hne].
  - intros [= ->]. left.
  - intros H. right. now apply IH.
Qed.

Lemma dict_get_xbrl_value (h : Heap.heap)
    (xbrl_data : list (string * gmap string (list positive))) namespace :
  dict_get namespace (Heap.xbrl_value h xbrl_data)
  = (fun m : gmap string (list positive) => Heap.dicts_at h <$> m)
      <$> dict_get namespace xbrl_data.
Proof.
  unfold Heap.xbrl_value.
  induction xbrl_data as [|[k m] xbrl_data IH]; simpl; [reflexivity|].
  now destruct (String.eqb namespace k).
Qed.

Lemma dict_keys_xbrl_value (h : Heap.heap)
    (xbrl_data : list (string * gmap string (list positive))) :
  dict_keys (Heap.xbrl_value h xbrl_data) = dict_keys xbrl_data.
Proof.
  unfold Heap.xbrl_value, dict_keys.
  induction xbrl_data as [|[k m] xbrl_data IH]; simpl; [reflexivity|].
  now f_equal.
Qed.

Lemma refines_extract_namespace (h : Heap.heap) print_metrics
    (xbrl_data : list (string * gmap string (list positive))) metric namespace :
  Heap.refs_allocated h xbrl_data ->
  Heap.refines h
    (Heap.extract_namespace print_metrics xbrl_data metric namespace)
    (extract_namespace print_metrics (Heap.xbrl_value h xbrl_data)
                       metric namespace).
Proof.
  intros Halloc. unfold Heap.extract_namespace, extract_namespace.
  rewrite dict_get_xbrl_value.
  destruct (dict_get namespace xbrl_data) as [m|] eqn:Hget; simpl.
  - rewrite lookup_fmap.
    destruct (m !! metric) as [facts|] eqn:Hlk; simpl.
    + apply (refines_for_each h (fun l => h !!! l)).
      intros l Hl. apply refines_extract_fact.
      eapply Halloc; [apply dict_get_elem_of, Hget|exact Hlk|exact Hl].
    + destruct print_metrics.
      * intros acc h0 Hsub Hacc.
        set (l' := fresh (dom h0)).
        assert (Hfresh : h0 !! l' = None)
          by (apply not_elem_of_dom, is_fresh).
        exists (Ok (acc ++ [l'])),
               (<[l' := {[ "content" := PyStr metric ]}]> h0).
        assert (Hsub' : h0 ⊆ <[l' := {[ "content" := PyStr metric ]}]> h0)
          by (apply insert_subseteq, Hfresh).
        split; [|split; [exact Hsub'|split]].
        -- unfold Heap.bind, Heap.dict_new, Heap.dict_setitem, Heap.ret.
           fold l'. rewrite lookup_insert_eq, insert_insert_eq.
           now rewrite insert_empty.
        -- apply Forall_app. split; [eapply allocated_weaken; eassumption|].
           constructor; [|constructor]. rewrite lookup_insert_eq. eauto.
        -- f_equal. unfold Heap.dicts_at. rewrite map_app. simpl.
           rewrite lookup_total_insert_eq. f_equal.
           symmetry. apply (dicts_at_weaken h0); assumption.
      * intros acc h0 Hsub Hacc. exists (Ok acc), h0.
        split; [reflexivity|]. split; [reflexivity|].
        split; [exact Hacc|reflexivity].
  - intros acc h0 Hsub Hacc. exists (Raise KeyError), h0.
    split; [reflexivity|]. split; reflexivity.
Qed.

Lemma refines_extract_metrics_with (h : Heap.heap) print_metrics
    (xbrl_data : list (string * gmap string (list positive))) metrics_list :
  Heap.refs_allocated h xbrl_data ->
  Heap.refines h
    (Heap.for_each metrics_list (Heap.extract_metric print_metrics xbrl_data))
    (for_each metrics_list
              (extract_metric print_metrics (Heap.xbrl_value h xbrl_data))).
Proof.
  intros Halloc.
  assert (Hloop : forall (xs : list string) hbody pbody,
             (forall x, x ∈ xs -> Heap.refines h (hbody x) (pbody x)) ->
             Heap.refines h (Heap.for_each xs hbody) (for_each xs pbody)).
  { intros xs hbody pbody Hbody.
    pose proof (refines_for_each h (fun x => x) xs hbody pbody Hbody) as H.
    now rewrite map_id in H. }
  apply Hloop. intros metric _.
  unfold Heap.extract_metric, extract_metric.
  rewrite dict_keys_xbrl_value.
  apply Hloop. intros namespace _.
  now apply refines_extract_namespace.
Qed.

(** One call on the store: it only adds objects, the rows it returns are
    allocated, and their values are those the value-level
    [extract_metrics] computes from the value of [xbrl_data]. *)
Lemma extract_metrics_on_store (h : Heap.heap)
    (xbrl_data : list (string * gmap string (list positive))) metrics_list :
  Heap.refs_allocated h xbrl_data ->
  exists r h',
    Heap.extract_metrics xbrl_data metrics_list h = (r, h')
    /\ h ⊆ h'
    /\ Heap.rows_value h' r
       = extract_metrics (Heap.xbrl_value h xbrl_data) metrics_list
    /\ forall ls, r = Ok ls -> Forall (fun l => is_Some (h' !! l)) ls.
Proof.
  intros Halloc.
  destruct (refines_extract_metrics_with h print_metrics xbrl_data
              metrics_list Halloc [] h ltac:(reflexivity) ltac:(constructor))
    as (r & h' & Hrun & Hsub & Hres).
  exists r, h'. split; [exact Hrun|]. split; [exact Hsub|].
  unfold extract_metrics, extract_metrics_with.
  destruct r as [ls|e]; simpl in *.
  - destruct Hres as [Hls Hpure]. split; [now rewrite Hpure|].
    now intros ? [= <-].
  - split; [now rewrite Hres|discriminate].
Qed.

Lemma refs_allocated_weaken (h h' : Heap.heap)
    (xbrl_data : list (string * gmap string (list positive))) :
  h ⊆ h' -> Heap.refs_allocated h xbrl_data -> Heap.refs_allocated h' xbrl_data.
Proof.
  intros Hsub Halloc namespace m metric facts l Hin Hlk Hl.
  destruct (Halloc namespace m metric facts l Hin Hlk Hl) as [d Hd].
  exists d. eapply lookup_weaken; eassumption.
Qed.

Lemma xbrl_value_weaken (h h' : Heap.heap)
    (xbrl_data : list (string * gmap string (list positive))) :
  h ⊆ h' -> Heap.refs_allocated h xbrl_data ->
  Heap.xbrl_value h' xbrl_data = Heap.xbrl_value h xbrl_data.
Proof.
  intros Hsub Halloc. unfold Heap.xbrl_value.
  apply map_ext_in. intros [k m] Hin%list_elem_of_In. simpl. f_equal.
  apply map_eq. intros metric. rewrite !lookup_fmap.
  destruct (m !! metric) as [facts|] eqn:Hlk; simpl; [|reflexivity].
  f_equal. apply dicts_at_weaken; [exact Hsub|].
  apply Forall_forall. intros l Hl. eapply Halloc; eassumption.
Qed.

(** C8: on a store, a call of [extract_metrics] changes no object that
    existed before it (so the value of [xbrl_data] is the same after one
    call and after two), and a second call with the same arguments returns
    rows with the same values as the first. *)
Theorem extract_metrics_leaves_input (h : Heap.heap)
    (xbrl_data : list (string * gmap string (list positive)))
    (metrics_list : list string) :
  Heap.refs_allocated h xbrl_data ->
  exists r1 h1 r2 h2,
    Heap.extract_metrics xbrl_data metrics_list h = (r1, h1)
    /\ Heap.extract_metrics xbrl_data metrics_list h1 = (r2, h2)
    /\ (forall l d, h !! l = Some d -> h1 !! l = Some d /\ h2 !! l = Some d)
    /\ Heap.xbrl_value h1 xbrl_data = Heap.xbrl_value h xbrl_data
    /\ Heap.xbrl_value h2 xbrl_data = Heap.xbrl_value h xbrl_data
    /\ Heap.rows_value h2 r2 = Heap.rows_value h1 r1
    /\ Heap.rows_value h2 r1 = Heap.rows_value h1 r1.
Proof.
  intros Halloc.
  destruct (extract_metrics_on_store h xbrl_data metrics_list Halloc)
    as (r1 & h1 & Hrun1 & Hsub1 & Hval1 & Hrows1).
  pose proof (refs_allocated_weaken _ _ _ Hsub1 Halloc) as Halloc1.
  destruct (extract_metrics_on_store h1 xbrl_data metrics_list Halloc1)
    as (r2 & h2 & Hrun2 & Hsub2 & Hval2 & _).
  pose proof (xbrl_value_weaken _ _ _ Hsub1 Halloc) as Hx1.
  pose proof (xbrl_value_weaken _ _ _ Hsub2 Halloc1) as Hx2.
  exists r1, h1, r2, h2.
  split; [exact Hrun1|]. split; [exact Hrun2|].
  split; [|split; [exact Hx1|split; [congruence|split]]].
  - intros l d Hl.
    assert (h1 !! l = Some d) by (eapply lookup_weaken; eassumption).
    split; [assumption|]. eapply lookup_weaken; eassumption.
  - rewrite Hval2, Hval1. now rewrite Hx1.
  - destruct r1 as [ls|e]; simpl; [|reflexivity].
    f_equal. apply dicts_at_weaken; [exact Hsub2|]. now apply Hrows1.
Qed.

Lemma sample_refs_allocated : Heap.refs_allocated sample_heap sample_refs.
Proof.
  intros namespace m metric facts l Hin Hlk Hl.
  apply list_elem_of_singleton in Hin as [= -> ->].
  apply lookup_singleton_Some in Hlk as [_ <-].
  apply list_elem_of_singleton in Hl as ->.
  vm_compute. eauto.
Qed.

(** Two calls on the sample store. *)
Lemma extract_metrics_leaves_input_witness :
  exists r1 h1 r2 h2,
    Heap.extract_metrics sample_refs [NetIncomeLoss] sample_heap = (r1, h1)
    /\ Heap.extract_metrics sample_refs [NetIncomeLoss] h1 = (r2, h2)
    /\ (forall l d, sample_heap !! l = Some d ->
                    h1 !! l = Some d /\ h2 !! l = Some d)
    /\ Heap.xbrl_value h1 sample_refs = Heap.xbrl_value sample_heap sample_refs
    /\ Heap.xbrl_value h2 sample_refs = Heap.xbrl_value sample_heap sample_refs
    /\ Heap.rows_value h2 r2 = Heap.rows_value h1 r1
    /\ Heap.rows_value h2 r1 = Heap.rows_value h1 r1.
Proof.
  apply (extract_metrics_leaves_input sample_heap sample_refs [NetIncomeLoss]).
  exact sample_refs_allocated.
Defined.

(** The call allocates the row as a new object, at address 2, and leaves
    the fact at address 1 as it was. *)
Example extract_metrics_sample_store :
  Heap.extract_metrics sample_refs [NetIncomeLoss] sample_heap
  = (Ok [2%positive],
     <[2%positive := ExtractedRow NetIncomeLoss "us-gaap"
                       (sample_fact "2024-02-03")
                       (combine (mkdate (ymd2ord 2024 2 5)) (mktime 9 30 0 0))]>
       sample_heap).
Proof. vm_compute. reflexivity. Qed.

(** The store does record writes through a reference: assigning to the
    fact object itself, instead of to a copy, changes the value of
    [xbrl_data]. *)
Example setitem_on_fact_changes_input :
  let h' := (Heap.dict_setitem 1 "content" (PyStr NetIncomeLoss) sample_heap).2 in
  Heap.xbrl_value h' sample_refs <> Heap.xbrl_value sample_heap sample_refs.
Proof. vm_compute. discriminate. Qed.
